(** * x402 payment protocol: challenge/proof engine

    A shallow embedding of the protocol code of the repository
    - [src/client.js]                 (client SDK),
    - [src/middleware.js]             (SDK server middleware),
    - the stand-alone server middleware (CommonJS variant with
      [parseChallenge] and the five-argument [verifyPaymentTransaction]),
    - [contracts/PaymentVerifier.sol] (on-chain attestor),
    followed by the properties of the specification checked against it. *)

From Stdlib Require Import ZArith Lia Bool List Ascii String.
From stdpp Require Import base option list strings gmap pretty.

Open Scope string_scope.
Open Scope list_scope.
Open Scope Z_scope.

(** ** JavaScript values and exceptions *)

(** A computation that either returns or throws [new Error(message)]. *)
Inductive result (A : Type) : Type :=
| Ok (a : A)
| Throw (message : string).
Arguments Ok {A} a.
Arguments Throw {A} message.

#[global] Instance result_ret : MRet result := fun A a => Ok a.

#[global] Instance result_bind : MBind result := fun A B k r =>
  match r with
  | Ok a => k a
  | Throw m => Throw m
  end.

(** The values that reach the protocol code.  Numbers are modelled on their
    integer values (timestamps, nonces, minor-unit amounts); [JNaN] is the
    not-a-number value.  [JFun name] is a function object of the host, such
    as [Object] or [Object.prototype.hasOwnProperty]: no JSON text holds one,
    but a property read on an object literal can return one. *)
#[warnings="-register-all"]
Inductive jsval : Type :=
| JUndefined
| JNull
| JBool (b : bool)
| JNum (n : Z)
| JNaN
| JStr (s : string)
| JObj (fields : list (string * jsval))
| JFun (name : string).

(** ToBoolean: what [if (v)] and [!v] test. *)
Definition truthy (v : jsval) : bool :=
  match v with
  | JUndefined | JNull | JNaN => false
  | JBool b => b
  | JNum n => negb (n =? 0)
  | JStr s => negb (String.eqb s "")
  | JObj _ | JFun _ => true
  end.

Fixpoint assoc (k : string) (fields : list (string * jsval)) : option jsval :=
  match fields with
  | [] => None
  | (k', v) :: rest => if String.eqb k k' then Some v else assoc k rest
  end.

(** [o[k]] for a key [k] of the protocol's messages: reading a property of
    [null] or [undefined] throws a TypeError, a property that is absent reads
    as [undefined]. *)
Definition getProp (o : jsval) (k : string) : result jsval :=
  match o with
  | JUndefined => Throw ("Cannot read properties of undefined (reading '" +:+ k +:+ "')")
  | JNull => Throw ("Cannot read properties of null (reading '" +:+ k +:+ "')")
  | JObj fields => Ok (default JUndefined (assoc k fields))
  | _ => Ok JUndefined
  end.

(** [v || d] *)
Definition orElse (v d : jsval) : jsval := if truthy v then v else d.

Definition lowerAscii (c : ascii) : ascii :=
  let n := N_of_ascii c in
  if ((65 <=? n) && (n <=? 90))%N then ascii_of_N (n + 32) else c.

Definition upperAscii (c : ascii) : ascii :=
  let n := N_of_ascii c in
  if ((97 <=? n) && (n <=? 122))%N then ascii_of_N (n - 32) else c.

Fixpoint mapString (f : ascii -> ascii) (s : string) : string :=
  match s with
  | EmptyString => EmptyString
  | String c rest => String (f c) (mapString f rest)
  end.

(** [s.toLowerCase()] and [s.toUpperCase()] on ASCII text (addresses, token
    and chain names). *)
Definition toLowerCase (s : string) : string := mapString lowerAscii s.
Definition toUpperCase (s : string) : string := mapString upperAscii s.
Arguments toLowerCase : simpl never.
Arguments toUpperCase : simpl never.

(** [v.toLowerCase()] for a value that need not be a string. *)
Definition callToLowerCase (v : jsval) : result string :=
  match v with
  | JStr s => Ok (toLowerCase s)
  | JUndefined => Throw "Cannot read properties of undefined (reading 'toLowerCase')"
  | JNull => Throw "Cannot read properties of null (reading 'toLowerCase')"
  | _ => Throw "toLowerCase is not a function"
  end.

(** [v.toString()] *)
Definition callToString (v : jsval) : result string :=
  match v with
  | JStr s => Ok s
  | JNum n => Ok (pretty n)
  | JNaN => Ok "NaN"
  | JBool true => Ok "true"
  | JBool false => Ok "false"
  | JObj _ => Ok "[object Object]"
  | JFun f => Ok ("function " +:+ f +:+ "() { [native code] }")
  | JUndefined => Throw "Cannot read properties of undefined (reading 'toString')"
  | JNull => Throw "Cannot read properties of null (reading 'toString')"
  end.

(** [s.split(sep)] for a one-character separator: the pieces between the
    occurrences of [sep], in order; never empty. *)
Fixpoint splitAcc (sep : ascii) (s : string) (piece : string) : list string :=
  match s with
  | EmptyString => [String.rev piece]
  | String c rest =>
      if Ascii.eqb c sep then String.rev piece :: splitAcc sep rest EmptyString
      else splitAcc sep rest (String c piece)
  end.

Definition split (sep : ascii) (s : string) : list string := splitAcc sep s EmptyString.

(** Array destructuring [const [a, b, c] = parts]: a missing element is
    [undefined]. *)
Definition element (parts : list string) (i : nat) : jsval :=
  match parts !! i with
  | Some s => JStr s
  | None => JUndefined
  end.

(** The two array destructurings that open both challenge parsers:
    [const [tokenChain, rest] = challenge.split('?')] and
    [tokenChain.split(':')]. *)
Definition pathSegment (challenge : string) : string :=
  default "" (split "?" challenge !! 0%nat).

Definition pathParts (challenge : string) : list string :=
  split ":" (pathSegment challenge).

(** A string or [null]. *)
Definition nullable (a : option string) : jsval :=
  match a with
  | Some s => JStr s
  | None => JNull
  end.

(** [s.startsWith(p)] *)
Definition startsWith (p s : string) : bool := String.prefix p s.

(** ** JSON and the proof header *)

(** The document [JSON.stringify] writes for a value: properties whose value
    is [undefined] or a function are left out, [NaN] is written as [null]. *)
Fixpoint toJSON (v : jsval) : jsval :=
  match v with
  | JNaN | JUndefined | JFun _ => JNull
  | JObj fields =>
      JObj ((fix props (fs : list (string * jsval)) : list (string * jsval) :=
               match fs with
               | [] => []
               | (_, JUndefined) :: rest | (_, JFun _) :: rest => props rest
               | (k, x) :: rest => (k, toJSON x) :: props rest
               end) fields)
  | _ => v
  end.

(** The value of the X-Payment-Proof header.  The header text is handled only
    through the platform's codec pair ([Buffer] base64, [JSON]), so a header is
    modelled by what that pair makes of it: [Base64Json doc] is the text
    [Buffer.from(JSON.stringify(doc)).toString('base64')], which
    [JSON.parse(Buffer.from(_, 'base64').toString('utf-8'))] maps back to [doc];
    [NotJson m] is any other non-empty text, on which [JSON.parse] throws a
    SyntaxError with message [m]. *)
Inductive transport : Type :=
| Base64Json (doc : jsval)
| NotJson (message : string).

(** [Buffer.from(JSON.stringify(o)).toString('base64')] for an object. *)
Definition stringifyBase64 (o : list (string * jsval)) : transport :=
  Base64Json (toJSON (JObj o)).

(** [JSON.parse(Buffer.from(header, 'base64').toString('utf-8'))] *)
Definition parseBase64 (header : transport) : result jsval :=
  match header with
  | Base64Json doc => Ok doc
  | NotJson m => Throw m
  end.

(** ** External libraries

    The functions of the [ethers] library and the JavaScript built-ins with
    floating-point or URL-decoding behaviour that the protocol code calls.
    The embedding is parametrised by them; [Reference] below gives an
    executable instance. *)
Record Externals : Type := {
  (** [ethers.getAddress(a)]: the checksummed form, or throws *)
  getAddress : jsval -> result string;
  (** [ethers.parseUnits(s, decimals)]; [parseEther] is [parseUnits _ 18] *)
  parseUnits : jsval -> nat -> result Z;
  (** [ethers.solidityPackedKeccak256] at types
      bytes32, address, address, uint256, uint256, uint256 *)
  solidityPackedKeccak256 : list jsval -> result string;
  (** [ethers.hashMessage(ethers.getBytes(h))] *)
  hashMessage : string -> string;
  (** [ethers.recoverAddress(digest, signature)] *)
  recoverAddress : string -> jsval -> result string;
  (** [ethers.verifyMessage(message, signature)] *)
  verifyMessage : string -> jsval -> result string;
  (** IEEE doubles as produced by [parseFloat], with their [<] *)
  float : Type;
  parseFloat : jsval -> float;
  floatLt : float -> float -> bool;
  (** [parseInt(s)]: a number or [NaN] *)
  parseInt : string -> jsval;
  (** ToNumber on a string; [None] is NaN *)
  stringToNumber : string -> option Z;
  (** [new URLSearchParams(rest).get(name)] *)
  searchParam : jsval -> string -> option string;
  (** The built-in objects of the host.  [inheritedProperty k] is the read
      [o[k]] on an object literal [o] that has no own property [k]: it is
      answered by [Object.prototype], with [undefined] when that has no such
      member either.  [builtinProperty v k] is the read [v[k]] on a value [v]
      found that way. *)
  inheritedProperty : string -> result jsval;
  builtinProperty : jsval -> string -> result jsval
}.

Definition parseEther (E : Externals) (s : jsval) : result Z := parseUnits E s 18.

(** [ethers.ZeroAddress] *)
Definition ZeroAddress : string := "0x0000000000000000000000000000000000000000".

(** ** Client SDK ([src/client.js]) *)
Module Client.

(** The fields a [PaymentChallenge] object holds after its constructor. *)
Record PaymentChallenge : Type := {
  raw : string;
  token : string;
  chain : string;
  recipient : jsval;
  amount : string;
  nonce : jsval;
  currency : string
}.

(** [params.get(name) || fallback] *)
Definition paramOr (E : Externals) (rest : jsval) (name fallback : string) : string :=
  match searchParam E rest name with
  | Some v => if String.eqb v "" then fallback else v
  | None => fallback
  end.

(** [new PaymentChallenge(challengeString)], that is [PaymentChallenge.parse]. *)
Definition parse (E : Externals) (challenge : string) : result PaymentChallenge :=
  let rest := element (split "?" challenge) 1 in
  let parts := pathParts challenge in
  token ← callToLowerCase (element parts 0);
  chain ← callToLowerCase (element parts 1);
  let recipient :=
    match getAddress E (element parts 2) with
    | Ok a => JStr a
    | Throw _ => element parts 2
    end in
  let nonce :=
    match searchParam E rest "nonce" with
    | Some v => if String.eqb v "" then JNull else parseInt E v
    | None => JNull
    end in
  Ok {| raw := challenge;
        token := token;
        chain := chain;
        recipient := recipient;
        amount := paramOr E rest "amount" "0.001";
        nonce := nonce;
        currency := paramOr E rest "currency" "usdc" |}.

(** The static registry of [getTokenAddress]: chain, then token symbol. *)
Definition tokens : gmap string (gmap string string) :=
  {[ "base_sepolia" :=
       {[ "usdc" := "0x036CbD53842c5426634e7929541eC2318f3dCF7e";
          "mock_usdc" := "0x0000000000000000000000000000000000000000" ]};
     "base" :=
       {[ "usdc" := "0x833589fCD6eDb6E08f4c7C32D4f71b54bdA02913" ]};
     "optimism_sepolia" :=
       {[ "usdc" := "0x5fd84259d66Cd46123540766Be93DFE6D43130D7" ]} ]}.


(** [tokens[chain]?.[token]]: the registry is an object literal of object
    literals.  A name that is not an own key is looked up where the literal
    inherits from, and the second read is a read on whatever the first one
    found; [?.] stops at [undefined] and [null]. *)
Definition registryEntry (E : Externals) (table : gmap string (gmap string string))
    (chain token : string) : result jsval :=
  match table !! chain with
  | Some entries =>
      match entries !! token with
      | Some a => Ok (JStr a)
      | None => inheritedProperty E token
      end
  | None =>
      found ← inheritedProperty E chain;
      match found with
      | JUndefined | JNull => Ok JUndefined
      | _ => builtinProperty E found token
      end
  end.

(** [tokens[chain]?.[token] || null] *)
Definition registryLookup (E : Externals) (table : gmap string (gmap string string))
    (chain token : string) : result jsval :=
  address ← registryEntry E table chain token;
  Ok (orElse address JNull).

(** [challenge.getTokenAddress()]: the checksummed address, or [null]. *)
Definition getTokenAddress (E : Externals) (c : PaymentChallenge) : result (option string) :=
  address ← registryLookup E tokens (chain c) (token c);
  if truthy address then a ← getAddress E address; Ok (Some a) else Ok None.

(** [challenge.getAmountWei()] *)
Definition getAmountWei (E : Externals) (c : PaymentChallenge) : result Z :=
  parseUnits E (JStr (amount c)) 6.

(** A [PaymentProof] object. *)
Record PaymentProof : Type := {
  txHash : jsval;
  challenge : PaymentChallenge;
  proofNonce : jsval;
  timestamp : jsval
}.

(** [proof.getProofHash()] *)
Definition getProofHash (E : Externals) (p : PaymentProof) : result string :=
  tokenAddress ← getTokenAddress E (challenge p);
  amountWei ← getAmountWei E (challenge p);
  solidityPackedKeccak256 E
    [txHash p; nullable tokenAddress; recipient (challenge p); JNum amountWei;
     timestamp p; proofNonce p].

(** The object literal built by [encode]. *)
Definition proofObject (E : Externals) (p : PaymentProof) (signature : jsval)
    : result (list (string * jsval)) :=
  tokenAddress ← getTokenAddress E (challenge p);
  amountWei ← getAmountWei E (challenge p);
  Ok [("txHash", txHash p);
      ("token", nullable tokenAddress);
      ("recipient", recipient (challenge p));
      ("amount", JStr (pretty amountWei));
      ("timestamp", timestamp p);
      ("nonce", proofNonce p);
      ("signature", signature)].

(** [proof.encode(signature)] *)
Definition encode (E : Externals) (p : PaymentProof) (signature : jsval) : result transport :=
  o ← proofObject E p signature;
  Ok (stringifyBase64 o).

(** *** Asynchronous calls of the client

    What the client awaits from the outside world.  The caller's own request
    options are carried unchanged by every request and are left out. *)
Record response : Type := {
  status : Z;
  (** what [await response.json()] gives *)
  body : result jsval
}.

Inductive call : Type -> Type :=
| HttpFetch (url : string) (proofHeader : option transport) : call response
| GetNonce (verifier : string) : call jsval
| BalanceOf (tokenAddress : string) : call Z
| Transfer (tokenAddress : string) (to : jsval) (amountWei : Z) : call jsval
| Wait (hash : jsval) : call unit
| SignMessage (proofHash : string) : call jsval
| DateNow : call Z.

(** An async function body: it returns, throws, or awaits a call and goes on
    with the value the call resolves to.  None of the client functions below
    catches, so a call that rejects ends the function with that error. *)
Inductive io (A : Type) : Type :=
| Return (a : A)
| Raise (message : string)
| Await {X : Type} (c : call X) (k : X -> io A).
Arguments Return {A} a.
Arguments Raise {A} message.
Arguments Await {A X} c k.

Fixpoint io_bind {A B : Type} (k : A -> io B) (m : io A) : io B :=
  match m with
  | Return a => k a
  | Raise msg => Raise msg
  | Await c k' => Await c (fun x => io_bind k (k' x))
  end.

#[global] Instance io_mret : MRet io := fun A a => Return a.
#[global] Instance io_mbind : MBind io := fun A B k m => io_bind k m.

Definition lift {A : Type} (r : result A) : io A :=
  match r with
  | Ok a => Return a
  | Throw m => Raise m
  end.

Definition await {X : Type} (c : call X) : io X := Await c Return.

(** One observed step of a run: a call and how it settled. *)
Inductive event : Type :=
| Resolved {X : Type} (c : call X) (x : X)
| Rejected {X : Type} (c : call X) (message : string).

(** [runs p tr r]: the body [p] can run with its calls settling as listed in
    [tr], ending in [r].  A call that rejects ends the run. *)
Fixpoint runs {A : Type} (p : io A) (tr : list event) (r : result A) : Prop :=
  match p with
  | Return a => tr = [] /\ r = Ok a
  | Raise m => tr = [] /\ r = Throw m
  | Await c k =>
      (exists x tr', tr = Resolved c x :: tr' /\ runs (k x) tr' r)
      \/ (exists m, tr = [Rejected c m] /\ r = Throw m)
  end.

Definition isFetch (e : event) : bool :=
  match e with
  | Resolved c _ | Rejected c _ =>
      match c with
      | HttpFetch _ _ => true
      | _ => false
      end
  end.

Definition isTransfer (e : event) : bool :=
  match e with
  | Resolved c _ | Rejected c _ =>
      match c with
      | Transfer _ _ _ => true
      | _ => false
      end
  end.

(** The balance a [balanceOf] query resolved to. *)
Definition balanceSeen (e : event) : option Z :=
  match e with
  | Resolved c x =>
      match c in call X return X -> option Z with
      | BalanceOf _ => fun balance => Some balance
      | _ => fun _ => None
      end x
  | Rejected _ _ => None
  end.

(** The arguments of a submitted [transfer]: token contract, destination,
    amount. *)
Definition transferOf (e : event) : option (string * jsval * Z) :=
  match e with
  | Resolved c _ | Rejected c _ =>
      match c with
      | Transfer tokenAddress dest amountWei => Some (tokenAddress, dest, amountWei)
      | _ => None
      end
  end.

Definition isGetNonce (e : event) : bool :=
  match e with
  | Resolved c _ | Rejected c _ =>
      match c with
      | GetNonce _ => true
      | _ => false
      end
  end.

(** A request that carries a payment proof. *)
Definition isRetry (e : event) : bool :=
  match e with
  | Resolved c _ | Rejected c _ =>
      match c with
      | HttpFetch _ (Some _) => true
      | _ => false
      end
  end.

(** The response an HTTP request resolved to. *)
Definition fetchedResponse (e : event) : option response :=
  match e with
  | Resolved c x =>
      match c in call X return X -> option response with
      | HttpFetch _ _ => fun resp => Some resp
      | _ => fun _ => None
      end x
  | Rejected _ _ => None
  end.

(** How many events of a run satisfy [P]. *)
Definition occurrences (P : event -> bool) (tr : list event) : nat :=
  length (List.filter P tr).

(** Every run of [p] has at most [n] events that satisfy [P]. *)
Definition atMost {A : Type} (P : event -> bool) (n : nat) (p : io A) : Prop :=
  forall tr r, runs p tr r -> (occurrences P tr <= n)%nat.

(** The request that carries the proof, if the run has one, is its last
    event, and the response it resolves to is the result of the run. *)
Definition retryIsLast (tr : list event) (r : result response) : Prop :=
  forall pre e post, tr = pre ++ e :: post -> isRetry e = true ->
    post = [] /\ forall resp, fetchedResponse e = Some resp -> r = Ok resp.

(** Options of [X402Client] that the flow reads. *)
Record ClientOptions : Type := {
  autoRetry : bool;
  verifierAddress : option string
}.

(** [paymentHandler.executePayment(challenge)]; the amounts spelled out in the
    insufficient-balance message are left out. *)
Definition executePayment (E : Externals) (c : PaymentChallenge) : io jsval :=
  tokenAddress ← lift (getTokenAddress E c);
  amountWei ← lift (getAmountWei E c);
  match tokenAddress with
  | None => Raise ("Token address not found for " +:+ token c +:+ " on " +:+ chain c)
  | Some a =>
      balance ← await (BalanceOf a);
      if balance <? amountWei then Raise "Insufficient balance"
      else
        hash ← await (Transfer a (recipient c) amountWei);
        _ ← await (Wait hash);
        Return hash
  end.

(** [client.pay(challengeString)] *)
Definition pay (E : Externals) (opts : ClientOptions) (challengeString : jsval) : io transport :=
  challenge ← lift (match challengeString with
                    | JStr s => parse E s
                    | _ => Throw "challenge.split is not a function"
                    end);
  nonce ← match nonce challenge, verifierAddress opts with
          | JNull, Some v => if String.eqb v "" then Return (JNum 0) else await (GetNonce v)
          | JNull, None => Return (JNum 0)
          | n, _ => Return n
          end;
  hash ← executePayment E challenge;
  nowMs ← await DateNow;
  let proof := {| txHash := hash; challenge := challenge;
                  proofNonce := nonce; timestamp := JNum (nowMs / 1000) |} in
  proofHash ← lift (getProofHash E proof);
  signature ← await (SignMessage proofHash);
  lift (encode E proof signature).

(** [client.fetch(url, options)] *)
Definition fetch (E : Externals) (opts : ClientOptions) (url : string) : io response :=
  response ← await (HttpFetch url None);
  if (status response =? 402) && autoRetry opts then
    body ← lift (body response);
    c1 ← lift (getProp body "challenge");
    challengeString ← (if truthy c1 then Return c1 else lift (getProp body "payment_required"));
    if truthy challengeString then
      proof ← pay E opts challengeString;
      await (HttpFetch url (Some proof))
    else Raise "402 response missing payment challenge"
  else Return response.

End Client.

(** ** The chain-read collaborator *)

Inductive selector : Type := SelTransfer | SelApprove.

(** The call data of a transaction, as the ABI decoder sees it:
    [transfer(address,uint256)] (selector 0xa9059cbb) or
    [approve(address,uint256)] with decoded arguments, data that starts with
    one of the two selectors but whose arguments do not decode, or anything
    else (empty data included). *)
Inductive calldata : Type :=
| CallTransfer (dest : string) (amount : Z)
| CallApprove (spender : string) (amount : Z)
| CallMalformed (sel : selector)
| CallOther.

Record transaction : Type := {
  to : option string;
  value : Z;
  data : calldata;
  blockNumber : option Z
}.

Record receipt : Type := { receiptStatus : option Z }.

(** [provider.getTransaction] and [provider.getTransactionReceipt]; a
    rejected promise is a [Throw]. *)
Record Provider : Type := {
  getTransaction : jsval -> result (option transaction);
  getTransactionReceipt : jsval -> result (option receipt)
}.

(** What a middleware does with a request: [next()], with the properties it
    has set on the request object before, or [res.status(code).json(body)]. *)
Inductive reply : Type :=
| CallNext (attached : list (string * jsval))
| Respond (code : Z) (body : list (string * jsval)).

Record request : Type := {
  path : string;
  (** [req.headers['x-payment-proof']]; [None] when absent or empty *)
  proofHeader : option transport
}.

(** ToNumber, for the operands of [<] and [>]. *)
Definition toNumber (E : Externals) (v : jsval) : option Z :=
  match v with
  | JNum n => Some n
  | JStr s => stringToNumber E s
  | JBool b => Some (if b then 1 else 0)
  | JNull => Some 0
  | JUndefined | JNaN | JObj _ | JFun _ => None
  end.

(** [v < n] and [v > n] against a number; false when [v] is NaN. *)
Definition jsLt (E : Externals) (v : jsval) (n : Z) : bool :=
  match toNumber E v with
  | Some x => x <? n
  | None => false
  end.

Definition jsGt (E : Externals) (v : jsval) (n : Z) : bool :=
  match toNumber E v with
  | Some x => n <? x
  | None => false
  end.

(** ** SDK server middleware ([src/middleware.js]) *)
Module Middleware.

Definition required : list string :=
  ["txHash"; "token"; "recipient"; "amount"; "timestamp"; "nonce"; "signature"].

(** The loop [for (const field of required) if (!proof[field]) throw ...]. *)
Fixpoint checkRequired (proof : jsval) (fields : list string) : result unit :=
  match fields with
  | [] => Ok tt
  | field :: rest =>
      v ← getProp proof field;
      if truthy v then checkRequired proof rest
      else Throw ("Missing required field: " +:+ field)
  end.

(** [decodeProof(proofHeader)] *)
Definition decodeProof (header : transport) : result jsval :=
  match (proof ← parseBase64 header;
         _ ← checkRequired proof required;
         Ok proof) with
  | Ok proof => Ok proof
  | Throw m => Throw ("Invalid proof format: " +:+ m)
  end.

(** The packed hash of the six signed fields of a decoded proof. *)
Definition proofHashOf (E : Externals) (proof : jsval) : result string :=
  txHash ← getProp proof "txHash";
  token ← getProp proof "token";
  recipient ← getProp proof "recipient";
  amount ← getProp proof "amount";
  timestamp ← getProp proof "timestamp";
  nonce ← getProp proof "nonce";
  solidityPackedKeccak256 E [txHash; token; recipient; amount; timestamp; nonce].

(** [verifyProofSignature(proof)] *)
Definition verifyProofSignature (E : Externals) (proof : jsval) : result string :=
  proofHash ← proofHashOf E proof;
  signature ← getProp proof "signature";
  recoverAddress E (hashMessage E proofHash) signature.

(** [verifyPaymentTransaction(proof, provider)]; every exception is caught
    and turned into [false]. *)
Definition verifyPaymentTransaction (P : Provider) (proof : jsval) : bool :=
  match (txHash ← getProp proof "txHash";
         found ← getTransaction P txHash;
         match found with
         | None => Ok false
         | Some tx =>
             match blockNumber tx with
             | None => Ok false
             | Some b =>
                 if b =? 0 then Ok false
                 else
                   rc ← getTransactionReceipt P txHash;
                   match rc with
                   | None => Throw "Cannot read properties of null (reading 'status')"
                   | Some r =>
                       match receiptStatus r with
                       | Some 1 =>
                           match data tx with
                           | CallTransfer dest amount =>
                               recipient ← getProp proof "recipient";
                               expected ← callToLowerCase recipient;
                               if negb (String.eqb (toLowerCase dest) expected) then Ok false
                               else
                                 claimed ← getProp proof "amount";
                                 claimedText ← callToString claimed;
                                 if negb (String.eqb (pretty amount) claimedText) then Ok false
                                 else Ok true
                           | CallMalformed SelTransfer => Throw "could not decode transaction data"
                           | CallApprove _ _ | CallMalformed SelApprove | CallOther => Ok true
                           end
                       | _ => Ok false
                       end
                   end
             end
         end) with
  | Ok b => b
  | Throw _ => false
  end.

(** The configuration record; the collaborators are external objects of
    which the middleware only tests the presence. *)
Record PaymentMiddlewareConfig : Type := {
  routes : gmap string string;
  provider : bool;
  verifierContract : bool;
  verifierSigner : bool;
  verifyOnChain : bool;
  verifyTransaction : bool;
  markUsed : bool
}.

(** [config.getChallengeForRoute(path)]: [routes[path] || null] *)
Definition getChallengeForRoute (cfg : PaymentMiddlewareConfig) (p : string) : option string :=
  match routes cfg !! p with
  | Some c => if String.eqb c "" then None else Some c
  | None => None
  end.

(** [config.isProofUsedInCache(proofHash)]: [proofCache.has(proofHash)] *)
Definition isProofUsedInCache (proofCache : gmap string Z) (proofHash : string) : bool :=
  bool_decide (is_Some (proofCache !! proofHash)).

(** [config.markProofInCache(proofHash)]; [tSet] and [tSweep] are its two
    readings of [Date.now()], in milliseconds. *)
Definition markProofInCache (proofCache : gmap string Z) (proofHash : string)
    (tSet tSweep : Z) : gmap string Z :=
  let cutoff := tSweep - 600000 in
  filter (fun entry : string * Z => ¬ (entry.2 < cutoff)) (<[proofHash := tSet]> proofCache).

(** *** The middleware function

    [paymentMiddleware] is an async function: it runs without yielding up to
    an [await], where other requests are served until the awaited promise
    settles.  Its three awaits are [verifyPaymentTransaction],
    [verifyProofOnChain] and [markProofUsed]; none of them rejects (each
    catches its own errors), the first two resolve to a boolean. *)
Inductive awaited : Type :=
| AwaitVerifyTransaction
| AwaitVerifyOnChain
| AwaitMarkUsed.

(** The local variables alive across an await. *)
Record frame : Type := {
  stage : awaited;
  proof : jsval;
  proofHash : string;
  signer : string
}.

Inductive progress : Type :=
| Finished (r : reply)
| Suspended (f : frame).

Definition error (code : Z) (text : string) : reply :=
  Respond code [("error", JStr text)].

Definition errorWith (code : Z) (text message : string) : reply :=
  Respond code [("error", JStr text); ("message", JStr message)].

(** Each run between two suspension points takes the clock reading [now]
    (milliseconds) for its calls of [Date.now()]. *)

(** Lines 288-296: mark the proof in the cache, attach, [next()]. *)
Definition grant (proofCache : gmap string Z) (f : frame) (now : Z)
    : gmap string Z * progress :=
  (markProofInCache proofCache (proofHash f) now now,
   Finished (CallNext [("paymentProof", proof f); ("paymentSigner", JStr (signer f))])).

(** Lines 271-286, up to the await of [verifyProofOnChain]. *)
Definition onChainStage (cfg : PaymentMiddlewareConfig) (proofCache : gmap string Z)
    (f : frame) (now : Z) : gmap string Z * progress :=
  if verifyOnChain cfg && verifierContract cfg
  then (proofCache, Suspended {| stage := AwaitVerifyOnChain; proof := proof f;
                                 proofHash := proofHash f; signer := signer f |})
  else grant proofCache f now.

(** Lines 260-269, up to the await of [verifyPaymentTransaction]. *)
Definition transactionStage (cfg : PaymentMiddlewareConfig) (proofCache : gmap string Z)
    (f : frame) (now : Z) : gmap string Z * progress :=
  if verifyTransaction cfg && provider cfg
  then (proofCache, Suspended {| stage := AwaitVerifyTransaction; proof := proof f;
                                 proofHash := proofHash f; signer := signer f |})
  else onChainStage cfg proofCache f now.

(** [proof.timestamp < now - 300 || proof.timestamp > now + 60] *)
Definition timestampRejected (E : Externals) (timestamp : jsval) (nowSeconds : Z) : bool :=
  jsLt E timestamp (nowSeconds - 300) || jsGt E timestamp (nowSeconds + 60).

(** Lines 222-258 inside the [try]: decode, hash, cache check, timestamp
    check, signature.  [Ok (inl r)] is an early [return res...]. *)
Definition checkProof (E : Externals) (proofCache : gmap string Z) (header : transport)
    (now : Z) : result (reply + frame) :=
  proof ← decodeProof header;
  proofHash ← proofHashOf E proof;
  if isProofUsedInCache proofCache proofHash
  then Ok (inl (errorWith 403 "Payment proof already used"
                  "This payment proof has been used already. Please make a new payment."))
  else
    timestamp ← getProp proof "timestamp";
    if timestampRejected E timestamp (now / 1000)
    then Ok (inl (error 403 "Payment proof expired or invalid timestamp"))
    else
      signer ← verifyProofSignature E proof;
      Ok (inr {| stage := AwaitVerifyTransaction; proof := proof;
                 proofHash := proofHash; signer := signer |}).

(** The middleware from its entry to its first suspension point or its end. *)
Definition start (E : Externals) (cfg : PaymentMiddlewareConfig)
    (proofCache : gmap string Z) (req : request) (now : Z) : gmap string Z * progress :=
  match getChallengeForRoute cfg (path req) with
  | None => (proofCache, Finished (CallNext []))
  | Some challenge =>
      match proofHeader req with
      | None =>
          (proofCache,
           Finished (Respond 402
                       [("error", JStr "Payment required");
                        ("challenge", JStr challenge);
                        ("message", JStr "This endpoint requires payment. Please include X-Payment-Proof header.")]))
      | Some header =>
          match checkProof E proofCache header now with
          | Ok (inl r) => (proofCache, Finished r)
          | Ok (inr f) => transactionStage cfg proofCache f now
          | Throw m => (proofCache, Finished (errorWith 403 "Invalid payment proof" m))
          end
      end
  end.

(** The middleware from the await in [stage f], resolved to [answer], to its
    next suspension point or its end. *)
Definition resume (cfg : PaymentMiddlewareConfig) (proofCache : gmap string Z)
    (f : frame) (answer : bool) (now : Z) : gmap string Z * progress :=
  match stage f with
  | AwaitVerifyTransaction =>
      if answer then onChainStage cfg proofCache f now
      else (proofCache, Finished (error 403 "Payment transaction invalid or not found"))
  | AwaitVerifyOnChain =>
      if answer then
        if markUsed cfg && verifierSigner cfg
        then (proofCache, Suspended {| stage := AwaitMarkUsed; proof := proof f;
                                       proofHash := proofHash f; signer := signer f |})
        else grant proofCache f now
      else (proofCache, Finished (error 403 "Payment proof verification failed"))
  | AwaitMarkUsed => grant proofCache f now
  end.

(** *** One server process

    All requests of a process share [config.proofCache].  The event loop
    either starts the middleware on an incoming request or resumes a
    suspended one whose promise has settled. *)
Record server : Type := {
  proofCache : gmap string Z;
  (** the middleware activations, oldest first; [None] once finished *)
  inflight : list (option frame);
  (** the replies sent so far, with the activation they belong to *)
  replies : list (nat * reply)
}.

Inductive tick : Type :=
| Arrive (req : request) (now : Z)
| Settle (activation : nat) (answer : bool) (now : Z).

Definition record (s : server) (id : nat) (out : gmap string Z * progress)
    (slots : list (option frame)) : server :=
  match out.2 with
  | Finished r =>
      {| proofCache := out.1; inflight := <[id := None]> slots;
         replies := replies s ++ [(id, r)] |}
  | Suspended f =>
      {| proofCache := out.1; inflight := <[id := Some f]> slots;
         replies := replies s |}
  end.

Definition serve (E : Externals) (cfg : PaymentMiddlewareConfig) (s : server) (t : tick)
    : server :=
  match t with
  | Arrive req now =>
      record s (length (inflight s)) (start E cfg (proofCache s) req now)
        (inflight s ++ [None])
  | Settle id answer now =>
      match inflight s !! id with
      | Some (Some f) => record s id (resume cfg (proofCache s) f answer now) (inflight s)
      | _ => s
      end
  end.

Definition serveAll (E : Externals) (cfg : PaymentMiddlewareConfig) (s : server)
    (ticks : list tick) : server :=
  fold_left (serve E cfg) ticks s.

Definition idle : server := {| proofCache := ∅; inflight := []; replies := [] |}.

(** The ReplayGuard calls of one activation, line 241 and line 289, run with
    nothing scheduled between them: the result of the check, and the cache
    after the insert that follows an accepting check. *)
Definition checkThenMark (proofCache : gmap string Z) (proofHash : string)
    (tSet tSweep : Z) : bool * gmap string Z :=
  if isProofUsedInCache proofCache proofHash then (false, proofCache)
  else (true, markProofInCache proofCache proofHash tSet tSweep).

(** A series of such check-then-insert pairs, each given by its hash and the
    two clock readings of its insert. *)
Definition checkThenMarkAll (proofCache : gmap string Z)
    (calls : list (string * Z * Z)) : gmap string Z :=
  fold_left (fun c call => (checkThenMark c call.1.1 call.1.2 call.2).2) calls proofCache.

(** A reply that lets the request through with a verified proof attached. *)
Definition isGrant (r : nat * reply) : bool :=
  match r.2 with
  | CallNext (_ :: _) => true
  | _ => false
  end.

End Middleware.

(** ** Stand-alone server middleware (the CommonJS variant) *)
Module Standalone.

Record challenge : Type := {
  token : string;
  chain : string;
  recipient : string;
  amount : string;
  nonce : jsval
}.

(** [parseChallenge(challengeString)]; [now] is the reading of [Date.now()]
    used when the challenge carries no nonce. *)
Definition parseChallenge (E : Externals) (challengeString : string) (now : Z)
    : result challenge :=
  let rest := JStr (default "" (split "?" challengeString !! 1%nat)) in
  let parts := pathParts challengeString in
  token ← callToLowerCase (element parts 0);
  chain ← callToLowerCase (element parts 1);
  recipient ← getAddress E (element parts 2);
  let amount :=
    match searchParam E rest "amount" with
    | Some v => if String.eqb v "" then "0.001" else v
    | None => "0.001"
    end in
  let nonce :=
    match searchParam E rest "nonce" with
    | Some v => if String.eqb v "" then JNum now else parseInt E v
    | None => JNum now
    end in
  Ok {| token := token; chain := chain; recipient := recipient;
        amount := amount; nonce := nonce |}.

Definition tokens : gmap string (gmap string string) :=
  {[ "base_sepolia" := {[ "usdc" := "0x036CbD53842c5426634e7929541eC2318f3dCF7e" ]};
     "base" := {[ "usdc" := "0x833589fCD6eDb6E08f4c7C32D4f71b54bdA02913" ]} ]}.

(** [getTokenAddress(chain, token)]: [tokens[chain]?.[token] || null] *)
Definition getTokenAddress (E : Externals) (chain token : string) : result jsval :=
  Client.registryLookup E tokens chain token.

(** [decodeProof(proofBase64)] *)
Definition decodeProof (header : transport) : result jsval :=
  match parseBase64 header with
  | Ok v => Ok v
  | Throw _ => Throw "Invalid proof format"
  end.

(** A value spliced into a template literal: [`${v}`]. *)
Definition interpolate (v : jsval) : string :=
  match v with
  | JUndefined => "undefined"
  | JNull => "null"
  | JBool true => "true"
  | JBool false => "false"
  | JNum n => pretty n
  | JNaN => "NaN"
  | JStr s => s
  | JObj _ => "[object Object]"
  | JFun f => "function " +:+ f +:+ "() { [native code] }"
  end.

(** [verifyProofSignature(proof)] *)
Definition verifyProofSignature (E : Externals) (proof : jsval) : result string :=
  match (txHash ← getProp proof "txHash";
         recipient ← getProp proof "recipient";
         amount ← getProp proof "amount";
         nonce ← getProp proof "nonce";
         signature ← getProp proof "signature";
         verifyMessage E
           ("x402:" +:+ interpolate txHash +:+ ":" +:+ interpolate recipient +:+ ":"
              +:+ interpolate amount +:+ ":" +:+ interpolate nonce)
           signature) with
  | Ok a => Ok a
  | Throw _ => Throw "Invalid signature"
  end.

(** [!tokenAddress || tokenAddress === ethers.ZeroAddress] *)
Definition nativeBranch (tokenAddress : jsval) : bool :=
  negb (truthy tokenAddress)
  || match tokenAddress with
     | JStr a => String.eqb a ZeroAddress
     | _ => false
     end.

(** [verifyPaymentTransaction(provider, txHash, expectedRecipient,
    expectedAmount, tokenAddress)]: returns [true] or throws. *)
Definition verifyPaymentTransaction (E : Externals) (P : Provider) (txHash : jsval)
    (expectedRecipient expectedAmount : string) (tokenAddress : jsval)
    : result bool :=
  found ← getTransaction P txHash;
  match found with
  | None => Throw "Transaction not found"
  | Some tx =>
      if nativeBranch tokenAddress then
        target ← callToLowerCase (nullable (to tx));
        if negb (String.eqb target (toLowerCase expectedRecipient))
        then Throw "Transaction recipient mismatch"
        else
          expectedWei ← parseEther E (JStr expectedAmount);
          if value tx <? expectedWei then Throw "Transaction amount insufficient"
          else Ok true
      else
        target ← callToLowerCase (nullable (to tx));
        contract ← callToLowerCase tokenAddress;
        if negb (String.eqb target contract)
        then Throw "Transaction not to token contract"
        else
          match data tx with
          | CallTransfer dest amount =>
              match (if negb (String.eqb (toLowerCase dest) (toLowerCase expectedRecipient))
                     then Throw "Transfer recipient mismatch"
                     else
                       expectedAmountWei ← parseUnits E (JStr expectedAmount) 6;
                       if amount <? expectedAmountWei
                       then Throw "Transfer amount insufficient"
                       else Ok true) with
              | Ok b => Ok b
              | Throw _ => Throw "Invalid token transfer transaction"
              end
          | CallApprove _ _ => Throw "Transaction is not a valid transfer"
          | CallMalformed _ | CallOther => Throw "Invalid token transfer transaction"
          end
  end.

(** [matchRoute(pattern, path)] *)
Definition segments (s : string) : list string :=
  filter (fun part => part ≠ "") (split "/" s).

Fixpoint everyPart (patternParts pathParts : list string) : bool :=
  match patternParts, pathParts with
  | [], _ => true
  | part :: ps, [] => startsWith ":" part && everyPart ps []
  | part :: ps, q :: qs => (startsWith ":" part || String.eqb part q) && everyPart ps qs
  end.

Definition matchRoute (pattern p : string) : bool :=
  if negb (length (segments pattern) =? length (segments p))%nat then false
  else everyPart (segments pattern) (segments p).

(** The options the middleware reads; [routes] keeps the order of
    [Object.entries]. *)
Record options : Type := {
  routes : list (string * string);
  verifyTransaction : bool;
  verifyOnChain : bool;
  markUsed : bool
}.

Fixpoint lookupRoute (rs : list (string * string)) (p : string) : option string :=
  match rs with
  | [] => None
  | (k, c) :: rest => if String.eqb k p then Some c else lookupRoute rest p
  end.

Fixpoint firstPattern (rs : list (string * string)) (p : string) : option string :=
  match rs with
  | [] => None
  | (pattern, c) :: rest => if matchRoute pattern p then Some c else firstPattern rest p
  end.

(** The challenge string selected for a path, [None] when it is falsy. *)
Definition challengeFor (rs : list (string * string)) (p : string) : option string :=
  let exact := default "" (lookupRoute rs p) in
  let chosen := if String.eqb exact "" then default "" (firstPattern rs p) else exact in
  if String.eqb chosen "" then None else Some chosen.

(** The body of the [try] block of [paymentMiddleware]. *)
Definition verifyProof (E : Externals) (opts : options) (P : Provider)
    (c : challenge) (header : transport) : result reply :=
  proof ← decodeProof header;
  txHash ← getProp proof "txHash";
  signature ← getProp proof "signature";
  recipient ← getProp proof "recipient";
  amount ← getProp proof "amount";
  if negb (truthy txHash) || negb (truthy signature) || negb (truthy recipient)
     || negb (truthy amount)
  then Ok (Respond 403
             [("error", JStr "Invalid proof format");
              ("message", JStr "Proof must contain txHash, signature, recipient, and amount")])
  else
    signer ← verifyProofSignature E proof;
    received ← callToLowerCase recipient;
    if negb (String.eqb received (toLowerCase (Standalone.recipient c)))
    then Ok (Respond 403
               [("error", JStr "Payment recipient mismatch");
                ("expected", JStr (Standalone.recipient c));
                ("received", recipient)])
    else if floatLt E (parseFloat E amount) (parseFloat E (JStr (Standalone.amount c)))
    then Ok (Respond 403
               [("error", JStr "Insufficient payment amount");
                ("required", JStr (Standalone.amount c));
                ("received", amount)])
    else
      _ ← (if verifyTransaction opts
           then
             tokenAddress ← getTokenAddress E (chain c) (token c);
             verifyPaymentTransaction E P txHash (Standalone.recipient c)
               (Standalone.amount c) tokenAddress
           else Ok true);
      Ok (CallNext [("paymentSigner", JStr signer)]).

(** [paymentMiddleware(req, res, next)].  A [Throw] is an exception that
    leaves the middleware: [parseChallenge] is called outside the [try]. *)
Definition paymentMiddleware (E : Externals) (opts : options) (P : Provider)
    (req : request) (now : Z) : result reply :=
  match challengeFor (routes opts) (path req) with
  | None => Ok (CallNext [])
  | Some challengeString =>
      c ← parseChallenge E challengeString now;
      match proofHeader req with
      | None =>
          Ok (Respond 402
                [("error", JStr "Payment Required");
                 ("challenge", JStr challengeString);
                 ("message", JStr "Please pay and provide proof in X-Payment-Proof header");
                 ("details", JObj [("amount", JStr (amount c));
                                   ("token", JStr (toUpperCase (token c)));
                                   ("chain", JStr (chain c));
                                   ("recipient", JStr (recipient c))])])
      | Some header =>
          match verifyProof E opts P c header with
          | Ok r => Ok r
          | Throw m =>
              Ok (Respond 403 [("error", JStr "Payment verification failed");
                               ("message", JStr m)])
          end
      end
  end.

End Standalone.

(** ** On-chain attestor ([contracts/PaymentVerifier.sol]) *)
Module PaymentVerifier.

(** [keccak256(abi.encodePacked(...))] of the six proof fields,
    [MessageHashUtils.toEthSignedMessageHash] and [ECDSA.recover], which
    reverts on a malformed signature. *)
Record Crypto : Type := {
  keccakPacked : Z -> Z -> Z -> Z -> Z -> Z -> Z;
  toEthSignedMessageHash : Z -> Z;
  recover : Z -> string -> result Z
}.

(** The arguments shared by [verifyPaymentProof] and [markProofUsed]. *)
Record proofArgs : Type := {
  paymentTxHash : Z;
  token : Z;
  recipient : Z;
  amount : Z;
  timestamp : Z;
  nonce : Z;
  signature : string
}.

(** Contract storage; a key that was never written reads as [false] or 0. *)
Record storage : Type := {
  usedProofs : gmap Z bool;
  nonces : gmap Z Z
}.

Definition isProofUsed (s : storage) (proofHash : Z) : bool :=
  default false (usedProofs s !! proofHash).

Definition getNonce (s : storage) (user : Z) : Z :=
  default 0 (nonces s !! user).

Definition maxUint256 : Z := 2 ^ 256 - 1.

(** [a + b] on uint256 in Solidity 0.8: overflow reverts with Panic(0x11). *)
Definition checkedAdd (a b : Z) : result Z :=
  if a + b <=? maxUint256 then Ok (a + b) else Throw "Panic(0x11)".

(** [require(cond, reason)] *)
Definition require (cond : bool) (reason : string) : result unit :=
  if cond then Ok tt else Throw reason.

Definition proofHashOf (C : Crypto) (a : proofArgs) : Z :=
  keccakPacked C (paymentTxHash a) (token a) (recipient a) (amount a) (timestamp a) (nonce a).

(** [verifyPaymentProof]; a [Throw] is a revert with that reason.
    [blockTimestamp] is [block.timestamp]. *)
Definition verifyPaymentProof (C : Crypto) (s : storage) (blockTimestamp : Z)
    (a : proofArgs) : result bool :=
  expiry ← checkedAdd (timestamp a) 300;
  _ ← require (blockTimestamp <=? expiry) "Proof expired";
  horizon ← checkedAdd blockTimestamp 60;
  _ ← require (timestamp a <=? horizon) "Proof timestamp too far in future";
  let proofHash := proofHashOf C a in
  _ ← require (negb (isProofUsed s proofHash)) "Proof already used";
  signer ← recover C (toEthSignedMessageHash C proofHash) (signature a);
  _ ← require (getNonce s signer =? nonce a) "Invalid nonce";
  Ok true.

(** [markProofUsed]: the storage after the call, or the revert. *)
Definition markProofUsed (C : Crypto) (s : storage) (blockTimestamp : Z)
    (a : proofArgs) : result storage :=
  valid ← verifyPaymentProof C s blockTimestamp a;
  _ ← require valid "Invalid proof";
  let proofHash := proofHashOf C a in
  let used := <[proofHash := true]> (usedProofs s) in
  payer ← recover C (toEthSignedMessageHash C proofHash) (signature a);
  next ← checkedAdd (getNonce s payer) 1;
  Ok {| usedProofs := used; nonces := <[payer := next]> (nonces s) |}.

(** A [markProofUsed] transaction as the chain records it: a reverted
    transaction leaves the storage as it was. *)
Definition transact (C : Crypto) (s : storage) (tx : Z * proofArgs) : storage :=
  match markProofUsed C s tx.1 tx.2 with
  | Ok s' => s'
  | Throw _ => s
  end.

Definition transactAll (C : Crypto) (s : storage) (txs : list (Z * proofArgs)) : storage :=
  fold_left (transact C) txs s.

End PaymentVerifier.

(** ** Reference instance of the external libraries

    An executable instance of [Externals], used to run the embedding on
    concrete requests. *)
Module Reference.

(** *** Keccak-256 *)

Definition mask64 : N := 0xFFFFFFFFFFFFFFFF%N.

Definition rotl64 (x n : N) : N :=
  N.land (N.lor (N.shiftl x n) (N.shiftr x (64 - n))) mask64.

Definition roundConstants : list N :=
  [0x0000000000000001; 0x0000000000008082; 0x800000000000808A; 0x8000000080008000;
   0x000000000000808B; 0x0000000080000001; 0x8000000080008081; 0x8000000000008009;
   0x000000000000008A; 0x0000000000000088; 0x0000000080008009; 0x000000008000000A;
   0x000000008000808B; 0x800000000000008B; 0x8000000000008089; 0x8000000000008003;
   0x8000000000008002; 0x8000000000000080; 0x000000000000800A; 0x800000008000000A;
   0x8000000080008081; 0x8000000000008080; 0x0000000080000001; 0x8000000080008008]%N.

(** Rotation offsets of the rho step, lane (x, y) at index x + 5 y. *)
Definition rotationOffsets : list N :=
  [ 0;  1; 62; 28; 27;
   36; 44;  6; 55; 20;
    3; 10; 43; 25; 39;
   41; 45; 15; 21;  8;
   18;  2; 61; 56; 14]%N.

Definition laneAt (st : list N) (x y : nat) : N :=
  default 0%N (st !! ((x mod 5) + 5 * (y mod 5))%nat).

Definition coords : list (nat * nat) :=
  flat_map (fun y => map (fun x => (x, y)) (seq 0 5)) (seq 0 5).

Definition theta (st : list N) : list N :=
  let c x := N.lxor (laneAt st x 0) (N.lxor (laneAt st x 1) (N.lxor (laneAt st x 2)
               (N.lxor (laneAt st x 3) (laneAt st x 4)))) in
  let d x := N.lxor (c (x + 4)%nat) (rotl64 (c (x + 1)%nat) 1) in
  map (fun xy : nat * nat => N.lxor (laneAt st xy.1 xy.2) (d xy.1)) coords.

(** Lane (X, Y) after rho and pi is lane (x, y) = (X + 3 Y, X) rotated. *)
Definition rhoPi (st : list N) : list N :=
  map (fun XY : nat * nat =>
         let x := ((XY.1 + 3 * XY.2) mod 5)%nat in
         let y := XY.1 in
         rotl64 (laneAt st x y) (default 0%N (rotationOffsets !! (x + 5 * y)%nat))) coords.

Definition chi (st : list N) : list N :=
  map (fun xy : nat * nat =>
         N.lxor (laneAt st xy.1 xy.2)
           (N.land (N.lxor (laneAt st (xy.1 + 1) xy.2) mask64) (laneAt st (xy.1 + 2) xy.2)))
      coords.

Definition iota (rc : N) (st : list N) : list N :=
  match st with
  | [] => []
  | l :: rest => N.lxor l rc :: rest
  end.

Definition keccakRound (st : list N) (rc : N) : list N := iota rc (chi (rhoPi (theta st))).

Definition keccakF (st : list N) : list N := fold_left keccakRound roundConstants st.

Fixpoint laneOfBytes (bs : list N) : N :=
  match bs with
  | [] => 0%N
  | b :: rest => (b + 256 * laneOfBytes rest)%N
  end.

Fixpoint chunks {A : Type} (n fuel : nat) (l : list A) : list (list A) :=
  match fuel with
  | O => []
  | S fuel' =>
      match l with
      | [] => []
      | _ => take n l :: chunks n fuel' (drop n l)
      end
  end.

(** Padding to the rate of 136 bytes: 0x01, zeros, 0x80. *)
Definition pad (msg : list N) : list N :=
  let k := (136 - (length msg mod 136))%nat in
  if (k =? 1)%nat then msg ++ [0x81%N]
  else msg ++ [0x01%N] ++ repeat 0%N (k - 2) ++ [0x80%N].

Definition absorb (st block : list N) : list N :=
  keccakF (zip_with N.lxor st (map laneOfBytes (chunks 8 17 block) ++ repeat 0%N 8)).

Fixpoint bytesOfLane (n : nat) (l : N) : list N :=
  match n with
  | O => []
  | S n' => N.land l 255 :: bytesOfLane n' (N.shiftr l 8)
  end.

(** Keccak-256 of a list of bytes, as a list of 32 bytes. *)
Definition keccak256 (msg : list N) : list N :=
  let padded := pad msg in
  let st := fold_left absorb (chunks 136 (length padded) padded) (repeat 0%N 25) in
  flat_map (bytesOfLane 8) (take 4 st).

(** *** Hexadecimal text *)

Definition hexDigit (n : N) : ascii :=
  default "0"%char (list_ascii_of_string "0123456789abcdef" !! N.to_nat n).

Fixpoint hexOfBytes (bs : list N) : string :=
  match bs with
  | [] => ""
  | b :: rest => String (hexDigit (b / 16)) (String (hexDigit (b mod 16)) (hexOfBytes rest))
  end.

Definition bytesOfString (s : string) : list N := map N_of_ascii (list_ascii_of_string s).

Definition between (lo hi : N) (c : ascii) : bool :=
  ((lo <=? N_of_ascii c) && (N_of_ascii c <=? hi))%N.

Definition isDigit (c : ascii) : bool := between 48 57 c.
Definition isUpperHex (c : ascii) : bool := between 65 70 c.
Definition isLowerHex (c : ascii) : bool := between 97 102 c.
Definition isHex (c : ascii) : bool := isDigit c || isUpperHex c || isLowerHex c.
Definition isAlnum (c : ascii) : bool := isDigit c || between 65 90 c || between 97 122 c.

(** The value of a digit in base 36 (case-insensitive). *)
Definition digitValue (c : ascii) : N :=
  let n := N_of_ascii c in
  if isDigit c then (n - 48)%N
  else if between 65 90 c then (n - 55)%N
  else (n - 87)%N.

Fixpoint numberInBase (base : N) (digits : list ascii) (acc : N) : N :=
  match digits with
  | [] => acc
  | d :: rest => numberInBase base rest (acc * base + digitValue d)%N
  end.

Fixpoint bytesOfHexDigits (digits : list ascii) : list N :=
  match digits with
  | hi :: lo :: rest => (16 * digitValue hi + digitValue lo)%N :: bytesOfHexDigits rest
  | _ => []
  end.

(** Big-endian bytes of a number, on [n] bytes. *)
Fixpoint bigEndian (n : nat) (v : N) : list N :=
  match n with
  | O => []
  | S n' => bigEndian n' (v / 256)%N ++ [(v mod 256)%N]
  end.

(** ["0x" + hex] *)
Definition hexlify (bs : list N) : string := "0x" +:+ hexOfBytes bs.

(** *** [ethers.getAddress] *)

(** [getChecksumAddress]: a hexadecimal letter is written in upper case when
    the matching nibble of the hash of the lower-case text is 8 or more. *)
Fixpoint applyChecksum (chars : list ascii) (nibbles : list N) : list ascii :=
  match chars, nibbles with
  | c :: cs, n :: ns => (if (8 <=? n)%N then upperAscii c else c) :: applyChecksum cs ns
  | _, _ => chars
  end.

Definition nibblesOf (bs : list N) : list N :=
  flat_map (fun b => [(b / 16)%N; (b mod 16)%N]) bs.

Definition getChecksumAddress (digits : string) : string :=
  let chars := list_ascii_of_string (toLowerCase digits) in
  let hashed := keccak256 (map N_of_ascii (take 40 chars)) in
  "0x" +:+ string_of_list_ascii (applyChecksum chars (take 40 (nibblesOf hashed))).

(** [ibanChecksum]: 98 minus the value, modulo 97, of the decimal expansion
    of the text rearranged as body, country code, "00". *)
Definition ibanExpand (c : ascii) : string := pretty (digitValue c).

Definition ibanChecksum (address : string) : string :=
  let upper := toUpperCase address in
  let rearranged := String.substring 4 (String.length upper - 4) upper
                    +:+ String.substring 0 2 upper +:+ "00" in
  let expanded := String.concat "" (map ibanExpand (list_ascii_of_string rearranged)) in
  let value := numberInBase 10 (list_ascii_of_string expanded) 0 in
  let checksum := pretty (98 - value mod 97)%N in
  if (String.length checksum <? 2)%nat then "0" +:+ checksum else checksum.

Fixpoint hexDigitsOf (fuel : nat) (v : N) (acc : string) : string :=
  match fuel with
  | O => acc
  | S fuel' =>
      if (v =? 0)%N then acc
      else hexDigitsOf fuel' (v / 16)%N (String (hexDigit (v mod 16)) acc)
  end.

(** [v.toString(16)], left-padded with zeros to 40 digits. *)
Definition hex40 (v : N) : string :=
  let digits := hexDigitsOf 64 v "" in
  string_of_list_ascii (repeat "0"%char (40 - String.length digits)) +:+ digits.

Definition mixedCase (s : string) : bool :=
  existsb isUpperHex (list_ascii_of_string s) && existsb isLowerHex (list_ascii_of_string s).

Definition getAddress (v : jsval) : result string :=
  match v with
  | JStr address =>
      let digits := if startsWith "0x" address
                    then String.substring 2 (String.length address - 2) address
                    else address in
      if (String.length digits =? 40)%nat && forallb isHex (list_ascii_of_string digits)
      then
        let result := getChecksumAddress digits in
        if mixedCase digits && negb (String.eqb result ("0x" +:+ digits))
        then Throw "bad address checksum"
        else Ok result
      else if startsWith "XE" address
              && ((String.length address =? 34)%nat || (String.length address =? 35)%nat)
              && forallb isDigit (list_ascii_of_string (String.substring 2 2 address))
              && forallb isAlnum
                   (list_ascii_of_string (String.substring 4 (String.length address - 4) address))
      then
        if negb (String.eqb (String.substring 2 2 address) (ibanChecksum address))
        then Throw "bad icap checksum"
        else
          Ok (getChecksumAddress
                (hex40 (numberInBase 36
                          (list_ascii_of_string
                             (String.substring 4 (String.length address - 4) address)) 0)))
      else Throw "invalid address"
  | _ => Throw "invalid address"
  end.

(** *** [ethers.parseUnits] *)

Fixpoint untilChar (stop : ascii) (s : string) : string * option string :=
  match s with
  | EmptyString => (EmptyString, None)
  | String c rest =>
      if Ascii.eqb c stop then (EmptyString, Some rest)
      else let (before, after) := untilChar stop rest in (String c before, after)
  end.

Definition allDigits (s : string) : bool := forallb isDigit (list_ascii_of_string s).

Definition decimalValue (s : string) : Z :=
  Z.of_N (numberInBase 10 (list_ascii_of_string s) 0).

(** A string of the form [-?digits.digits] with at least one digit; digits
    beyond [decimals] must be zeros; the result fits 512 signed bits. *)
Definition parseUnits (v : jsval) (decimals : nat) : result Z :=
  match v with
  | JStr text =>
      let negative := startsWith "-" text in
      let unsigned := if negative then String.substring 1 (String.length text - 1) text
                      else text in
      let (whole, fraction) := untilChar "." unsigned in
      let frac := default "" fraction in
      if negb (allDigits whole && allDigits frac
               && (0 <? String.length whole + String.length frac)%nat)
      then Throw "invalid FixedNumber string value"
      else if negb (forallb (Ascii.eqb "0") (drop decimals (list_ascii_of_string frac)))
      then Throw "too many decimals for format"
      else
        let kept := String.substring 0 decimals
                      (frac +:+ string_of_list_ascii (repeat "0"%char decimals)) in
        let magnitude := decimalValue (whole +:+ kept) in
        let value := if negative then - magnitude else magnitude in
        if (- 2 ^ 511 <=? value) && (value <? 2 ^ 511) then Ok value
        else Throw "overflow"
  | _ => Throw "value must be a string"
  end.

(** *** [ethers.solidityPackedKeccak256] and message hashing *)

Definition packBytes32 (v : jsval) : result (list N) :=
  match v with
  | JStr s =>
      if startsWith "0x" s && (String.length s =? 66)%nat
         && forallb isHex (list_ascii_of_string (String.substring 2 64 s))
      then Ok (bytesOfHexDigits (list_ascii_of_string (String.substring 2 64 s)))
      else Throw "invalid bytes32"
  | _ => Throw "invalid bytes32"
  end.

Definition packAddress (v : jsval) : result (list N) :=
  a ← getAddress v;
  Ok (bytesOfHexDigits (list_ascii_of_string (String.substring 2 40 a))).

(** uint256 from a safe integer, a decimal string or a 0x-hexadecimal
    string. *)
Definition packUint256 (v : jsval) : result (list N) :=
  let inRange (n : Z) : result (list N) :=
    if (0 <=? n) && (n <? 2 ^ 256) then Ok (bigEndian 32 (Z.to_N n))
    else Throw "value out of range" in
  match v with
  | JNum n => if (Z.abs n <=? 2 ^ 53 - 1) then inRange n else Throw "overflow"
  | JStr s =>
      if startsWith "0x" s && (2 <? String.length s)%nat
         && forallb isHex (list_ascii_of_string (String.substring 2 (String.length s - 2) s))
      then inRange (Z.of_N (numberInBase 16
                              (list_ascii_of_string
                                 (String.substring 2 (String.length s - 2) s)) 0))
      else if (0 <? String.length s)%nat && allDigits s then inRange (decimalValue s)
      else Throw "invalid BigNumberish string"
  | _ => Throw "invalid BigNumberish value"
  end.

Definition solidityPackedKeccak256 (values : list jsval) : result string :=
  match values with
  | [txHash; token; recipient; amount; timestamp; nonce] =>
      b1 ← packBytes32 txHash;
      b2 ← packAddress token;
      b3 ← packAddress recipient;
      b4 ← packUint256 amount;
      b5 ← packUint256 timestamp;
      b6 ← packUint256 nonce;
      Ok (hexlify (keccak256 (b1 ++ b2 ++ b3 ++ b4 ++ b5 ++ b6)))
  | _ => Throw "wrong number of values"
  end.

(** The digest of a message under the signed-message prefix. *)
Definition prefixedDigest (message : list N) : string :=
  hexlify (keccak256 ([25%N] ++ bytesOfString "Ethereum Signed Message:" ++ [10%N]
                      ++ bytesOfString (pretty (length message)) ++ message)).

Definition dataBytes (hex : string) : list N :=
  bytesOfHexDigits (list_ascii_of_string (String.substring 2 (String.length hex - 2) hex)).

Definition hashMessage (proofHash : string) : string := prefixedDigest (dataBytes proofHash).

(** Public-key recovery over secp256k1 is not reproduced.  The stand-in
    keeps what the protocol code relies on: a signature of 65 bytes recovers
    an address determined by digest and signature, anything else throws. *)
Definition recoverAddress (digest : string) (signature : jsval) : result string :=
  match signature with
  | JStr sig =>
      if startsWith "0x" sig && (String.length sig =? 132)%nat
         && forallb isHex (list_ascii_of_string (String.substring 2 130 sig))
      then Ok (getChecksumAddress
                 (hexOfBytes (drop 12 (keccak256 (dataBytes digest ++ dataBytes sig)))))
      else Throw "invalid signature"
  | _ => Throw "invalid signature"
  end.

Definition verifyMessage (message : string) (signature : jsval) : result string :=
  recoverAddress (prefixedDigest (bytesOfString message)) signature.

(** *** Built-ins *)

(** A double given by its decimal notation, [mantissa * 10 ^ exponent],
    kept exactly: the rounding of IEEE-754 is not reproduced. *)
Inductive double : Type :=
| NotANumber
| Infinite (negative : bool)
| Decimal (mantissa exponent : Z).

Definition isSpace (c : ascii) : bool :=
  let n := N_of_ascii c in ((n =? 32) || ((9 <=? n) && (n <=? 13)))%N.

Fixpoint trimStart (s : string) : string :=
  match s with
  | String c rest => if isSpace c then trimStart rest else s
  | EmptyString => s
  end.

Fixpoint takeDigits (s : string) : string * string :=
  match s with
  | String c rest =>
      if isDigit c then let (d, r) := takeDigits rest in (String c d, r)
      else (EmptyString, s)
  | EmptyString => (EmptyString, EmptyString)
  end.

Definition takeSign (s : string) : bool * string :=
  match s with
  | String "-" rest => (true, rest)
  | String "+" rest => (false, rest)
  | _ => (false, s)
  end.

(** The exponent part [e[+-]digits], 0 when there is none. *)
Definition takeExponent (s : string) : Z :=
  match s with
  | String c rest =>
      if Ascii.eqb c "e" || Ascii.eqb c "E" then
        let (negative, digits) := takeSign rest in
        let (d, _) := takeDigits digits in
        if String.eqb d "" then 0
        else if negative then - decimalValue d else decimalValue d
      else 0
  | EmptyString => 0
  end.

Definition parseFloatString (s : string) : double :=
  let (negative, body) := takeSign (trimStart s) in
  if startsWith "Infinity" body then Infinite negative
  else
    let (whole, afterWhole) := takeDigits body in
    let (frac, afterFrac) :=
      match afterWhole with
      | String "." rest => takeDigits rest
      | _ => (EmptyString, afterWhole)
      end in
    if String.eqb whole "" && String.eqb frac "" then NotANumber
    else
      let magnitude := decimalValue (whole +:+ frac) in
      Decimal (if negative then - magnitude else magnitude)
              (takeExponent afterFrac - Z.of_nat (String.length frac)).

Definition parseFloat (v : jsval) : double :=
  match v with
  | JStr s => parseFloatString s
  | JNum n => Decimal n 0
  | _ => NotANumber
  end.

Definition floatLt (a b : double) : bool :=
  match a, b with
  | NotANumber, _ | _, NotANumber => false
  | Infinite true, Infinite true => false
  | Infinite true, _ => true
  | _, Infinite true => false
  | Infinite false, _ => false
  | _, Infinite false => true
  | Decimal m1 e1, Decimal m2 e2 =>
      let e := Z.min e1 e2 in
      m1 * 10 ^ (e1 - e) <? m2 * 10 ^ (e2 - e)
  end.

(** [parseInt(s)] without radix: leading blanks, a sign, then decimal digits
    or 0x and hexadecimal digits. *)
Fixpoint takeHex (s : string) : string :=
  match s with
  | String c rest => if isHex c then String c (takeHex rest) else EmptyString
  | EmptyString => EmptyString
  end.

Definition parseInt (s : string) : jsval :=
  let (negative, body) := takeSign (trimStart s) in
  let magnitude :=
    if startsWith "0x" body || startsWith "0X" body then
      let h := takeHex (String.substring 2 (String.length body - 2) body) in
      if String.eqb h "" then None
      else Some (Z.of_N (numberInBase 16 (list_ascii_of_string h) 0))
    else
      let (d, _) := takeDigits body in
      if String.eqb d "" then None else Some (decimalValue d) in
  match magnitude with
  | Some m => JNum (if negative then - m else m)
  | None => JNaN
  end.

(** ToNumber on the text of an integer literal; other texts are NaN. *)
Definition stringToNumber (s : string) : option Z :=
  let (negative, body) := takeSign (trimStart s) in
  let (d, after) := takeDigits body in
  if String.eqb (trimStart after) "" then
    if String.eqb d "" then (if String.eqb body "" then Some 0 else None)
    else Some (if negative then - decimalValue d else decimalValue d)
  else None.

(** Form decoding of a name or a value: [+] is a blank, [%XX] a byte. *)
Fixpoint formDecode (s : string) : string :=
  match s with
  | String "+" rest => String " " (formDecode rest)
  | String "%" (String h (String l rest) as tail) =>
      if isHex h && isHex l
      then String (ascii_of_N (16 * digitValue h + digitValue l)) (formDecode rest)
      else String "%" (formDecode tail)
  | String c rest => String c (formDecode rest)
  | EmptyString => EmptyString
  end.

Fixpoint firstParam (name : string) (pairs : list string) : option string :=
  match pairs with
  | [] => None
  | item :: rest =>
      let (k, v) := untilChar "=" item in
      if negb (String.eqb item "") && String.eqb (formDecode k) name
      then Some (formDecode (default "" v))
      else firstParam name rest
  end.

(** [new URLSearchParams(rest).get(name)] *)
Definition searchParam (rest : jsval) (name : string) : option string :=
  match rest with
  | JStr query =>
      firstParam name
        (split "&" (if startsWith "?" query
                    then String.substring 1 (String.length query - 1) query
                    else query))
  | _ => None
  end.

(** *** Built-in objects

    The objects of ECMAScript 2023 that a read on an object literal can
    reach: [Object.prototype], its member functions and the constructor
    [Object], with what those inherit from [Function.prototype]. *)
Definition objectPrototypeMembers : list (string * jsval) :=
  [("constructor", JFun "Object");
   ("__defineGetter__", JFun "__defineGetter__");
   ("__defineSetter__", JFun "__defineSetter__");
   ("hasOwnProperty", JFun "hasOwnProperty");
   ("__lookupGetter__", JFun "__lookupGetter__");
   ("__lookupSetter__", JFun "__lookupSetter__");
   ("isPrototypeOf", JFun "isPrototypeOf");
   ("propertyIsEnumerable", JFun "propertyIsEnumerable");
   ("toString", JFun "toString");
   ("valueOf", JFun "valueOf");
   ("toLocaleString", JFun "toLocaleString")].

Definition objectPrototype : jsval := JObj objectPrototypeMembers.

(** The accessor [__proto__] answers with the prototype of the object that
    is read: [Object.prototype] for an object literal. *)
Definition inheritedProperty (k : string) : result jsval :=
  if String.eqb k "__proto__" then Ok objectPrototype
  else Ok (default JUndefined (assoc k objectPrototypeMembers)).

Definition functionPrototypeMembers : list (string * jsval) :=
  [("apply", JFun "apply"); ("bind", JFun "bind"); ("call", JFun "call");
   ("constructor", JFun "Function"); ("toString", JFun "toString")].

Definition objectStatics : list string :=
  ["assign"; "create"; "defineProperties"; "defineProperty"; "entries"; "freeze";
   "fromEntries"; "getOwnPropertyDescriptor"; "getOwnPropertyDescriptors";
   "getOwnPropertyNames"; "getOwnPropertySymbols"; "getPrototypeOf"; "hasOwn"; "is";
   "isExtensible"; "isFrozen"; "isSealed"; "keys"; "preventExtensions"; "seal";
   "setPrototypeOf"; "values"].

(** The [length] of the functions above. *)
Definition functionLength (f : string) : Z :=
  if existsb (String.eqb f) ["__defineGetter__"; "__defineSetter__"] then 2
  else if existsb (String.eqb f)
            ["Object"; "hasOwnProperty"; "isPrototypeOf"; "propertyIsEnumerable";
             "__lookupGetter__"; "__lookupSetter__"] then 1
  else 0.

(** [f[k]] for a built-in function [f]: its own [name] and [length], the
    members of the constructor [Object], then [Function.prototype] (whose
    accessors [caller] and [arguments] throw) and [Object.prototype]. *)
Definition functionProperty (f k : string) : result jsval :=
  if String.eqb k "name" then Ok (JStr f)
  else if String.eqb k "length" then Ok (JNum (functionLength f))
  else if String.eqb f "Object" && String.eqb k "prototype" then Ok objectPrototype
  else if String.eqb f "Object" && existsb (String.eqb k) objectStatics then Ok (JFun k)
  else if String.eqb k "caller" || String.eqb k "arguments"
  then Throw ("'caller', 'callee', and 'arguments' properties may not be accessed on "
              +:+ "strict mode functions or the arguments objects for calls to them")
  else if String.eqb k "__proto__" then Ok (JFun "")
  else
    match assoc k functionPrototypeMembers with
    | Some v => Ok v
    | None => Ok (default JUndefined (assoc k objectPrototypeMembers))
    end.

(** [v[k]] for what [inheritedProperty] returns: a function, or
    [Object.prototype] itself, whose own prototype is [null]. *)
Definition builtinProperty (v : jsval) (k : string) : result jsval :=
  match v with
  | JFun f => functionProperty f k
  | JObj members =>
      if String.eqb k "__proto__" then Ok JNull
      else Ok (default JUndefined (assoc k members))
  | _ => getProp v k
  end.

Definition externals : Externals :=
  Build_Externals getAddress parseUnits solidityPackedKeccak256 hashMessage
    recoverAddress verifyMessage double parseFloat floatLt parseInt stringToNumber
    searchParam inheritedProperty builtinProperty.

(** *** The contract's hashing

    [keccak256(abi.encodePacked(...))] on bytes32, address, address and three
    uint256, the signed-message digest of a 32-byte hash, and the same
    stand-in for public-key recovery: 65 bytes of signature recover an
    address determined by digest and signature, another length reverts. *)
Definition wordOfBytes (bs : list N) : Z := Z.of_N (fold_left (fun acc b => acc * 256 + b)%N bs 0%N).

Definition crypto : PaymentVerifier.Crypto :=
  PaymentVerifier.Build_Crypto
    (fun txHash token recipient amount timestamp nonce =>
       wordOfBytes (keccak256 (bigEndian 32 (Z.to_N txHash) ++ bigEndian 20 (Z.to_N token)
                               ++ bigEndian 20 (Z.to_N recipient)
                               ++ bigEndian 32 (Z.to_N amount)
                               ++ bigEndian 32 (Z.to_N timestamp)
                               ++ bigEndian 32 (Z.to_N nonce))))
    (fun h =>
       wordOfBytes (keccak256 ([25%N] ++ bytesOfString "Ethereum Signed Message:" ++ [10%N]
                               ++ bytesOfString "32" ++ bigEndian 32 (Z.to_N h))))
    (fun digest sig =>
       if (String.length sig =? 65)%nat
       then Ok (wordOfBytes (drop 12 (keccak256 (bigEndian 32 (Z.to_N digest)
                                                 ++ bytesOfString sig))))
       else Throw "ECDSAInvalidSignatureLength").

End Reference.

(** ** Concrete data

    The challenge, proof and transactions on which the embedding is run
    below; the challenge string and the transaction hash are those of the
    repository's test-suite. *)
Module Samples.

Definition E : Externals := Reference.externals.

Definition merchant : string := "0xf81dc05616C47447Ffdc5a866642cDD26271D37b".

Definition challengeString : string :=
  "usdc:base_sepolia:0xf81dc05616C47447Ffdc5a866642cDD26271D37b?amount=0.001".

Definition challenge : Client.PaymentChallenge :=
  {| Client.raw := challengeString;
     Client.token := "usdc";
     Client.chain := "base_sepolia";
     Client.recipient := JStr merchant;
     Client.amount := "0.001";
     Client.nonce := JNull;
     Client.currency := "usdc" |}.

Definition txHash : string :=
  "0x1111111111111111111111111111111111111111111111111111111111111111".

(** Sixty-five bytes of signature. *)
Definition signature : string :=
  "0x" +:+ string_of_list_ascii (repeat "a"%char 130).

(** [new PaymentProof(txHash, challenge, nonce, 1700000000)] *)
Definition proofWithNonce (n : Z) : Client.PaymentProof :=
  {| Client.txHash := JStr txHash;
     Client.challenge := challenge;
     Client.proofNonce := JNum n;
     Client.timestamp := JNum 1700000000 |}.

(** The proof object a server decodes from [proofWithNonce n]. *)
Definition decoded (n : Z) : list (string * jsval) :=
  [("txHash", JStr txHash);
   ("token", JStr "0x036CbD53842c5426634e7929541eC2318f3dCF7e");
   ("recipient", JStr merchant);
   ("amount", JStr "1000");
   ("timestamp", JNum 1700000000);
   ("nonce", JNum n);
   ("signature", JStr signature)].

(** The packed hash of [decoded 7]. *)
Definition proofHash : string :=
  Eval vm_compute in
    match Middleware.proofHashOf E (JObj (decoded 7)) with
    | Ok h => h
    | Throw _ => ""
    end.

(** A server that verifies transactions through a provider. *)
Definition config : Middleware.PaymentMiddlewareConfig :=
  {| Middleware.routes := {[ "/premium-data" := challengeString ]};
     Middleware.provider := true;
     Middleware.verifierContract := false;
     Middleware.verifierSigner := false;
     Middleware.verifyOnChain := true;
     Middleware.verifyTransaction := true;
     Middleware.markUsed := true |}.

(** A request for the paid route carrying the proof with nonce 7. *)
Definition paidRequest : request :=
  {| path := "/premium-data";
     proofHeader := Some (Base64Json (JObj (decoded 7))) |}.

(** The specification's comparison of amounts: the proof amount, an
    integer in minor units, against the challenge amount, a decimal in whole
    units, both in minor units of a token with [decimals] decimals. *)
Definition sufficientInMinorUnits (decimals : nat) (proofAmount challengeAmount : string)
    : option bool :=
  match Reference.parseUnits (JStr proofAmount) 0,
        Reference.parseUnits (JStr challengeAmount) decimals with
  | Ok paid, Ok asked => Some (asked <=? paid)
  | _, _ => None
  end.

(** A proof in the format of the stand-alone middleware, paying [amount]. *)
Definition standaloneProof (amount : string) : list (string * jsval) :=
  [("txHash", JStr txHash);
   ("recipient", JStr merchant);
   ("amount", JStr amount);
   ("nonce", JNum 7);
   ("signature", JStr signature)].

Definition standaloneRequest (amount : string) : request :=
  {| path := "/premium-data";
     proofHeader := Some (Base64Json (JObj (standaloneProof amount))) |}.

Definition standaloneOptions (challenge : string) (verify : bool) : Standalone.options :=
  {| Standalone.routes := [("/premium-data", challenge)];
     Standalone.verifyTransaction := verify;
     Standalone.verifyOnChain := false;
     Standalone.markUsed := false |}.

(** A chain on which every hash is a confirmed, successful transaction
    [tx]. *)
Definition chainWith (tx : transaction) : Provider :=
  {| getTransaction := fun _ => Ok (Some tx);
     getTransactionReceipt := fun _ => Ok (Some {| receiptStatus := Some 1 |}) |}.

(** A plain transfer of 0.001 of the native currency to the merchant. *)
Definition nativeTransfer : transaction :=
  {| to := Some merchant; value := 1000000000000000; data := CallOther;
     blockNumber := Some 100 |}.

(** A transaction that calls nothing and pays nobody involved. *)
Definition strayTransaction : transaction :=
  {| to := Some "0x000000000000000000000000000000000000dEaD"; value := 0;
     data := CallOther; blockNumber := Some 100 |}.

(** An [approve] call on the token contract. *)
Definition approveTransaction : transaction :=
  {| to := Some "0x036CbD53842c5426634e7929541eC2318f3dCF7e"; value := 0;
     data := CallApprove merchant 1000; blockNumber := Some 100 |}.



(** A client run against a server that answers 402 both times. *)
Definition clientOptions : Client.ClientOptions :=
  {| Client.autoRetry := true; Client.verifierAddress := None |}.

Definition paymentRequired : Client.response :=
  {| Client.status := 402;
     Client.body := Ok (JObj [("error", JStr "Payment required");
                              ("challenge", JStr challengeString)]) |}.

Definition clientProof : Client.PaymentProof :=
  {| Client.txHash := JStr txHash;
     Client.challenge := challenge;
     Client.proofNonce := JNum 0;
     Client.timestamp := JNum 1700000007 |}.

Definition clientProofHash : string :=
  Eval vm_compute in
    match Client.getProofHash E clientProof with
    | Ok h => h
    | Throw _ => ""
    end.

Definition clientHeader : transport :=
  Eval vm_compute in
    match Client.encode E clientProof (JStr signature) with
    | Ok h => h
    | Throw m => NotJson m
    end.

Definition usdc : string := "0x036CbD53842c5426634e7929541eC2318f3dCF7e".

Definition retriedRun : list Client.event :=
  [Client.Resolved (Client.HttpFetch "/premium-data" None) paymentRequired;
   Client.Resolved (Client.BalanceOf usdc) 5000;
   Client.Resolved (Client.Transfer usdc (JStr merchant) 1000) (JStr txHash);
   Client.Resolved (Client.Wait (JStr txHash)) tt;
   Client.Resolved Client.DateNow 1700000007250;
   Client.Resolved (Client.SignMessage clientProofHash) (JStr signature);
   Client.Resolved (Client.HttpFetch "/premium-data" (Some clientHeader)) paymentRequired].

(** The calls of [client.pay] within [retriedRun]. *)
Definition paymentRun : list Client.event :=
  [Client.Resolved (Client.BalanceOf usdc) 5000;
   Client.Resolved (Client.Transfer usdc (JStr merchant) 1000) (JStr txHash);
   Client.Resolved (Client.Wait (JStr txHash)) tt;
   Client.Resolved Client.DateNow 1700000007250;
   Client.Resolved (Client.SignMessage clientProofHash) (JStr signature)].

(** The same proof as the contract receives it, signed by [payer]. *)
Definition onChainProof : PaymentVerifier.proofArgs :=
  {| PaymentVerifier.paymentTxHash :=
       0x1111111111111111111111111111111111111111111111111111111111111111;
     PaymentVerifier.token := 0x036CbD53842c5426634e7929541eC2318f3dCF7e;
     PaymentVerifier.recipient := 0xf81dc05616C47447Ffdc5a866642cDD26271D37b;
     PaymentVerifier.amount := 1000;
     PaymentVerifier.timestamp := 1700000000;
     PaymentVerifier.nonce := 0;
     PaymentVerifier.signature := string_of_list_ascii (repeat "a"%char 65) |}.

Definition payer : Z :=
  Eval vm_compute in
    match PaymentVerifier.recover Reference.crypto
            (PaymentVerifier.toEthSignedMessageHash Reference.crypto
               (PaymentVerifier.proofHashOf Reference.crypto onChainProof))
            (PaymentVerifier.signature onChainProof) with
    | Ok a => a
    | Throw _ => 0
    end.

Definition freshStorage : PaymentVerifier.storage :=
  {| PaymentVerifier.usedProofs := ∅; PaymentVerifier.nonces := ∅ |}.

(** One wallet: the hashing of the reference instance, and a recovery that
    answers every signature of 65 bytes with [payer]. *)
Definition onePayer : PaymentVerifier.Crypto :=
  PaymentVerifier.Build_Crypto
    (PaymentVerifier.keccakPacked Reference.crypto)
    (PaymentVerifier.toEthSignedMessageHash Reference.crypto)
    (fun _ sig =>
       if (String.length sig =? 65)%nat then Ok payer
       else Throw "ECDSAInvalidSignatureLength").

(** Two more proofs of that payer, for other payments: one that carries the
    next nonce, and one that carries the nonce of [onChainProof] again. *)
Definition nextProof : PaymentVerifier.proofArgs :=
  {| PaymentVerifier.paymentTxHash :=
       0x2222222222222222222222222222222222222222222222222222222222222222;
     PaymentVerifier.token := 0x036CbD53842c5426634e7929541eC2318f3dCF7e;
     PaymentVerifier.recipient := 0xf81dc05616C47447Ffdc5a866642cDD26271D37b;
     PaymentVerifier.amount := 2000;
     PaymentVerifier.timestamp := 1700000005;
     PaymentVerifier.nonce := 1;
     PaymentVerifier.signature := string_of_list_ascii (repeat "b"%char 65) |}.

Definition reusedNonceProof : PaymentVerifier.proofArgs :=
  {| PaymentVerifier.paymentTxHash :=
       0x3333333333333333333333333333333333333333333333333333333333333333;
     PaymentVerifier.token := 0x036CbD53842c5426634e7929541eC2318f3dCF7e;
     PaymentVerifier.recipient := 0xf81dc05616C47447Ffdc5a866642cDD26271D37b;
     PaymentVerifier.amount := 5000;
     PaymentVerifier.timestamp := 1700000008;
     PaymentVerifier.nonce := 0;
     PaymentVerifier.signature := string_of_list_ascii (repeat "c"%char 65) |}.

(** Ten seconds after the proof was made, in milliseconds. *)
Definition arrival : Z := 1700000010000.

End Samples.

(** * Properties *)

(** ** Decoding the proof header *)

Lemma checkRequired_all (proof : jsval) (fields : list string) :
  Middleware.checkRequired proof fields = Ok tt ->
  forall k, k ∈ fields -> exists v, getProp proof k = Ok v /\ truthy v = true.
Proof.
  induction fields as [|f rest IH]; intros Hcheck k Hk.
  - inversion Hk.
  - cbn in Hcheck. destruct (getProp proof f) as [v|m] eqn:Hget; cbn in Hcheck; [|discriminate].
    destruct (truthy v) eqn:Hv; [|discriminate].
    apply elem_of_cons in Hk as [->|Hk]; eauto.
Qed.

Lemma checkRequired_first_falsy (fs : list (string * jsval)) (fields : list string) :
  (exists k, k ∈ fields /\ truthy (default JUndefined (assoc k fs)) = false) ->
  exists k, k ∈ fields /\ truthy (default JUndefined (assoc k fs)) = false /\
    Middleware.checkRequired (JObj fs) fields = Throw ("Missing required field: " +:+ k).
Proof.
  induction fields as [|f rest IH]; intros (k & Hk & Hfalsy).
  - inversion Hk.
  - cbn. destruct (truthy (default JUndefined (assoc f fs))) eqn:Hf.
    + apply elem_of_cons in Hk as [->|Hk]; [congruence|].
      destruct IH as (k' & Hk' & Hf' & Hthrow); [eauto|].
      exists k'. split_and!; [by apply list_elem_of_further|done|done].
    + exists f. split_and!; [by apply list_elem_of_here|done|done].
Qed.

Lemma checkRequired_truthy (fs : list (string * jsval)) (fields : list string) :
  (forall k, k ∈ fields -> truthy (default JUndefined (assoc k fs)) = true) ->
  Middleware.checkRequired (JObj fs) fields = Ok tt.
Proof.
  induction fields as [|f rest IH]; intros Hall; [done|].
  cbn. rewrite (Hall f) by apply list_elem_of_here.
  apply IH. intros k Hk. apply Hall. by apply list_elem_of_further.
Qed.

Lemma decodeProof_object (header : transport) (fs : list (string * jsval)) :
  parseBase64 header = Ok (JObj fs) ->
  Middleware.decodeProof header =
    match Middleware.checkRequired (JObj fs) Middleware.required with
    | Ok _ => Ok (JObj fs)
    | Throw m => Throw ("Invalid proof format: " +:+ m)
    end.
Proof.
  intros Hparse. unfold Middleware.decodeProof. rewrite Hparse.
  generalize Middleware.required. intros fields. cbn.
  by destruct (Middleware.checkRequired (JObj fs) fields) as [[]|].
Qed.

(** C10.  A header that decodes to a JSON object holding all seven required
    keys, one of them with a falsy value, is rejected by [decodeProof] with
    the missing-required-field error for the first such key; in particular a
    proof whose other fields are truthy and whose nonce is the number 0 is
    rejected for its nonce.  A header that [decodeProof] accepts has a truthy
    value under each of the seven keys. *)
Theorem decodeProof_accepts_only_truthy_fields
    (header : transport) (fs : list (string * jsval)) :
  parseBase64 header = Ok (JObj fs) ->
  (forall k, k ∈ Middleware.required -> is_Some (assoc k fs)) ->
  ((exists k, k ∈ Middleware.required /\ truthy (default JUndefined (assoc k fs)) = false) ->
   exists k, k ∈ Middleware.required /\
     truthy (default JUndefined (assoc k fs)) = false /\
     Middleware.decodeProof header =
       Throw ("Invalid proof format: Missing required field: " +:+ k))
  /\ (assoc "nonce" fs = Some (JNum 0) ->
      (forall k, k ∈ ["txHash"; "token"; "recipient"; "amount"; "timestamp"] ->
                 truthy (default JUndefined (assoc k fs)) = true) ->
      Middleware.decodeProof header =
        Throw "Invalid proof format: Missing required field: nonce")
  /\ (forall proof, Middleware.decodeProof header = Ok proof ->
      proof = JObj fs /\
      forall k, k ∈ Middleware.required -> truthy (default JUndefined (assoc k fs)) = true).
Proof.
  intros Hparse _. rewrite (decodeProof_object _ _ Hparse). split_and!.
  - intros Hex. destruct (checkRequired_first_falsy fs _ Hex) as (k & Hk & Hf & Hthrow).
    exists k. by rewrite Hthrow.
  - intros Hnonce Hrest. unfold Middleware.required. cbn.
    rewrite !Hrest by (repeat constructor). by rewrite Hnonce.
  - intros proof Hok.
    destruct (Middleware.checkRequired (JObj fs) Middleware.required) as [[]|m] eqn:Hc;
      [|discriminate].
    split; [congruence|]. intros k Hk.
    destruct (checkRequired_all _ _ Hc k Hk) as (v & Hget & Hv).
    cbn in Hget. congruence.
Qed.

Lemma decodeProof_accepts_only_truthy_fields_witness :
  Middleware.decodeProof (Base64Json (JObj (Samples.decoded 0))) =
    Throw "Invalid proof format: Missing required field: nonce".
Proof.
  destruct (decodeProof_accepts_only_truthy_fields
              (Base64Json (JObj (Samples.decoded 0))) (Samples.decoded 0))
    as (_ & Hnonce & _).
  - reflexivity.
  - intros k Hk. vm_compute in Hk.
    repeat (apply elem_of_cons in Hk as [->|Hk]; [vm_compute; eauto|]).
    inversion Hk.
  - apply Hnonce; [reflexivity|].
    intros k Hk.
    repeat (apply elem_of_cons in Hk as [->|Hk]; [reflexivity|]).
    inversion Hk.
Defined.

(** ** Round trip of the proof envelope *)

Lemma toJSON_data (o : list (string * jsval)) :
  Forall (fun kv : string * jsval => truthy kv.2 = true /\ toJSON kv.2 = kv.2) o ->
  toJSON (JObj o) = JObj o.
Proof.
  intros Hall. cbn. f_equal.
  induction Hall as [|[k v] rest [Hv Hjson] _ IH]; [done|].
  cbn in Hv, Hjson. rewrite IH, Hjson. by destruct v.
Qed.

(** X17.  The envelope survives the round trip when every field value is
    truthy JSON data: [decodeProof] returns the very object [encode]
    wrote. *)
Lemma encode_decode_truthy (E : Externals) (p : Client.PaymentProof) (sig : jsval)
    (o : list (string * jsval)) :
  Client.proofObject E p sig = Ok o ->
  Forall (fun kv : string * jsval => truthy kv.2 = true /\ toJSON kv.2 = kv.2) o ->
  exists header, Client.encode E p sig = Ok header /\
    Middleware.decodeProof header = Ok (JObj o).
Proof.
  intros Hobj Hall. exists (stringifyBase64 o). unfold Client.encode. rewrite Hobj.
  split; [done|]. unfold stringifyBase64. rewrite (toJSON_data _ Hall).
  rewrite (decodeProof_object _ o) by done.
  rewrite checkRequired_truthy; [done|].
  intros k Hk. unfold Client.proofObject in Hobj.
  destruct (Client.getTokenAddress E (Client.challenge p)) as [t|]; [|discriminate].
  destruct (Client.getAmountWei E (Client.challenge p)) as [a|]; [|discriminate].
  injection Hobj as <-.
  repeat (apply Forall_cons in Hall as [[? _] Hall]).
  unfold Middleware.required in Hk.
  repeat (apply elem_of_cons in Hk as [->|Hk]; [done|]).
  inversion Hk.
Qed.

(** C3.  The round trip fails on the proof of the client's default flow: a
    proof built with nonce 0 for the test-suite's challenge encodes to a
    header that [decodeProof] rejects, instead of returning the fields. *)
Theorem encode_decode_nonce_zero :
  Client.parse Samples.E Samples.challengeString = Ok Samples.challenge /\
  Client.encode Samples.E (Samples.proofWithNonce 0) (JStr Samples.signature)
    = Ok (Base64Json (JObj (Samples.decoded 0))) /\
  Middleware.decodeProof (Base64Json (JObj (Samples.decoded 0)))
    = Throw "Invalid proof format: Missing required field: nonce".
Proof. by vm_compute. Qed.

(** With any other nonce the same proof does round-trip. *)
Lemma encode_decode_nonce_seven :
  Client.encode Samples.E (Samples.proofWithNonce 7) (JStr Samples.signature)
    = Ok (Base64Json (JObj (Samples.decoded 7))) /\
  Middleware.decodeProof (Base64Json (JObj (Samples.decoded 7)))
    = Ok (JObj (Samples.decoded 7)).
Proof. by vm_compute. Qed.

(** ** Freshness of the proof timestamp *)

Lemma timestampRejected_number (E : Externals) (ts now : Z) :
  Middleware.timestampRejected E (JNum ts) now = (ts <? now - 300) || (now + 60 <? ts).
Proof. reflexivity. Qed.

Lemma checkProof_at_timestamp (E : Externals) (cache : gmap string Z) (header : transport)
    (proof : jsval) (h : string) (nowMs ts : Z) :
  Middleware.decodeProof header = Ok proof ->
  Middleware.proofHashOf E proof = Ok h ->
  Middleware.isProofUsedInCache cache h = false ->
  getProp proof "timestamp" = Ok (JNum ts) ->
  Middleware.checkProof E cache header nowMs =
    if (ts <? nowMs / 1000 - 300) || (nowMs / 1000 + 60 <? ts)
    then Ok (inl (Middleware.error 403 "Payment proof expired or invalid timestamp"))
    else signer ← Middleware.verifyProofSignature E proof;
         Ok (inr {| Middleware.stage := Middleware.AwaitVerifyTransaction;
                    Middleware.proof := proof;
                    Middleware.proofHash := h;
                    Middleware.signer := signer |}).
Proof.
  intros Hdec Hhash Hfresh Hts. unfold Middleware.checkProof.
  rewrite Hdec. cbn. rewrite Hhash. cbn. rewrite Hfresh, Hts. cbn.
  by rewrite timestampRejected_number.
Qed.

(** C2.  In the middleware, a decoded proof that is not in the cache passes
    the timestamp check (and goes on to signature recovery) when its
    timestamp is now - 300 or now + 60, and is answered with the 403 "expired
    or invalid timestamp" when it is now - 301 or now + 61, where now is the
    server clock in whole seconds.  The verifier contract draws the same
    lines around [block.timestamp]: it reverts with "Proof expired" at
    now - 301 and with "Proof timestamp too far in future" at now + 61, and
    passes both checks at now - 300 and now + 60. *)
Theorem freshness_boundary :
  (forall (E : Externals) (cache : gmap string Z) (header : transport) (proof : jsval)
          (h : string) (nowMs ts : Z),
      Middleware.decodeProof header = Ok proof ->
      Middleware.proofHashOf E proof = Ok h ->
      Middleware.isProofUsedInCache cache h = false ->
      getProp proof "timestamp" = Ok (JNum ts) ->
      let now := nowMs / 1000 in
      (ts = now - 300 \/ ts = now + 60 ->
       Middleware.checkProof E cache header nowMs =
         (signer ← Middleware.verifyProofSignature E proof;
          Ok (inr {| Middleware.stage := Middleware.AwaitVerifyTransaction;
                     Middleware.proof := proof;
                     Middleware.proofHash := h;
                     Middleware.signer := signer |})))
      /\ (ts = now - 301 \/ ts = now + 61 ->
          Middleware.checkProof E cache header nowMs =
            Ok (inl (Middleware.error 403 "Payment proof expired or invalid timestamp"))))
  /\ (forall (C : PaymentVerifier.Crypto) (s : PaymentVerifier.storage) (now : Z)
             (a : PaymentVerifier.proofArgs),
      0 <= PaymentVerifier.timestamp a ->
      PaymentVerifier.timestamp a + 300 <= PaymentVerifier.maxUint256 ->
      now + 60 <= PaymentVerifier.maxUint256 ->
      let ts := PaymentVerifier.timestamp a in
      (ts = now - 300 \/ ts = now + 60 ->
       PaymentVerifier.verifyPaymentProof C s now a =
         (_ ← PaymentVerifier.require
                (negb (PaymentVerifier.isProofUsed s (PaymentVerifier.proofHashOf C a)))
                "Proof already used";
          signer ← PaymentVerifier.recover C
                     (PaymentVerifier.toEthSignedMessageHash C (PaymentVerifier.proofHashOf C a))
                     (PaymentVerifier.signature a);
          _ ← PaymentVerifier.require
                (PaymentVerifier.getNonce s signer =? PaymentVerifier.nonce a) "Invalid nonce";
          Ok true))
      /\ (ts = now - 301 -> PaymentVerifier.verifyPaymentProof C s now a = Throw "Proof expired")
      /\ (ts = now + 61 ->
          PaymentVerifier.verifyPaymentProof C s now a
            = Throw "Proof timestamp too far in future")).
Proof.
  split.
  - intros E cache header proof h nowMs ts Hdec Hhash Hfresh Hts now.
    rewrite (checkProof_at_timestamp E cache header proof h nowMs ts) by done.
    fold now. split; intros [-> | ->].
    + replace (now - 300 <? now - 300) with false by lia.
      by replace (now + 60 <? now - 300) with false by lia.
    + replace (now + 60 <? now - 300) with false by lia.
      by replace (now + 60 <? now + 60) with false by lia.
    + by replace (now - 301 <? now - 300) with true by lia.
    + replace (now + 61 <? now - 300) with false by lia.
      by replace (now + 60 <? now + 61) with true by lia.
  - intros C s now a Hts Hexp Hnow ts. unfold PaymentVerifier.verifyPaymentProof.
    unfold PaymentVerifier.checkedAdd. fold ts.
    replace (ts + 300 <=? PaymentVerifier.maxUint256) with true by (subst ts; lia).
    replace (now + 60 <=? PaymentVerifier.maxUint256) with true by lia.
    cbn. split_and!.
    + intros [H | H].
      * replace (now <=? ts + 300) with true by lia. cbn.
        by replace (ts <=? now + 60) with true by lia.
      * replace (now <=? ts + 300) with true by lia. cbn.
        by replace (ts <=? now + 60) with true by lia.
    + intros H. by replace (now <=? ts + 300) with false by lia.
    + intros H. replace (now <=? ts + 300) with true by lia. cbn.
      by replace (ts <=? now + 60) with false by lia.
Qed.

Lemma freshness_boundary_witness :
  Middleware.checkProof Samples.E ∅ (Base64Json (JObj (Samples.decoded 7))) 1700000300999
    = (signer ← Middleware.verifyProofSignature Samples.E (JObj (Samples.decoded 7));
       Ok (inr {| Middleware.stage := Middleware.AwaitVerifyTransaction;
                  Middleware.proof := JObj (Samples.decoded 7);
                  Middleware.proofHash := Samples.proofHash;
                  Middleware.signer := signer |}))
  /\ PaymentVerifier.verifyPaymentProof Reference.crypto Samples.freshStorage 1700000301
       Samples.onChainProof = Throw "Proof expired".
Proof.
  destruct freshness_boundary as [Hjs Hsol]. split.
  - destruct (Hjs Samples.E ∅ (Base64Json (JObj (Samples.decoded 7)))
                (JObj (Samples.decoded 7)) Samples.proofHash 1700000300999 1700000000)
      as [Hpass _].
    + reflexivity.
    + vm_compute. reflexivity.
    + reflexivity.
    + reflexivity.
    + apply Hpass. left. reflexivity.
  - destruct (Hsol Reference.crypto Samples.freshStorage 1700000301 Samples.onChainProof)
      as (_ & Hexpired & _).
    + vm_compute. discriminate.
    + vm_compute. discriminate.
    + vm_compute. discriminate.
    + apply Hexpired. reflexivity.
Defined.

(** ** The replay cache *)

Lemma isProofUsedInCache_true (cache : gmap string Z) (h : string) (t : Z) :
  cache !! h = Some t -> Middleware.isProofUsedInCache cache h = true.
Proof. intros H. unfold Middleware.isProofUsedInCache. rewrite H. by apply bool_decide_eq_true. Qed.

Lemma isProofUsedInCache_false (cache : gmap string Z) (h : string) :
  cache !! h = None -> Middleware.isProofUsedInCache cache h = false.
Proof.
  intros H. unfold Middleware.isProofUsedInCache. rewrite H.
  apply bool_decide_eq_false. by intros [? ?].
Qed.

(** The insert is visible to the next check unless the two clock readings
    of [markProofInCache] are more than ten minutes apart. *)
Lemma markProofInCache_inserted (cache : gmap string Z) (h : string) (tSet tSweep : Z) :
  tSweep - 600000 <= tSet ->
  Middleware.markProofInCache cache h tSet tSweep !! h = Some tSet.
Proof.
  intros Hclock. unfold Middleware.markProofInCache.
  apply map_lookup_filter_Some_2; [by rewrite lookup_insert_eq | cbn; lia].
Qed.

(** An entry survives the insert of another hash as long as the sweep
    happens at most ten minutes after the entry was made. *)
Lemma markProofInCache_retains (cache : gmap string Z) (h h' : string) (t0 tSet tSweep : Z) :
  cache !! h = Some t0 -> h' <> h -> tSweep <= t0 + 600000 ->
  Middleware.markProofInCache cache h' tSet tSweep !! h = Some t0.
Proof.
  intros Hin Hne Hclock. unfold Middleware.markProofInCache.
  apply map_lookup_filter_Some_2; [by rewrite lookup_insert_ne | cbn; lia].
Qed.

(** ... and is evicted by a sweep later than that. *)
Lemma markProofInCache_evicts (cache : gmap string Z) (h h' : string) (t0 tSet tSweep : Z) :
  cache !! h = Some t0 -> h' <> h -> t0 + 600000 < tSweep ->
  Middleware.markProofInCache cache h' tSet tSweep !! h = None.
Proof.
  intros Hin Hne Hclock. unfold Middleware.markProofInCache.
  apply map_lookup_filter_None_2. right. intros t.
  rewrite lookup_insert_ne by done. intros Ht. cbn. rewrite Hin in Ht. injection Ht as <-. lia.
Qed.

Lemma checkThenMark_retains (cache : gmap string Z) (h : string) (t0 : Z)
    (call : string * Z * Z) :
  cache !! h = Some t0 -> call.2 <= t0 + 600000 ->
  (Middleware.checkThenMark cache call.1.1 call.1.2 call.2).2 !! h = Some t0.
Proof.
  intros Hin Hclock. unfold Middleware.checkThenMark.
  destruct (Middleware.isProofUsedInCache cache call.1.1) eqn:Hused; [done|]. cbn.
  apply markProofInCache_retains; [done| |done].
  intros Heq. rewrite Heq in Hused.
  by rewrite (isProofUsedInCache_true _ _ _ Hin) in Hused.
Qed.

Lemma checkThenMarkAll_retains (calls : list (string * Z * Z)) (cache : gmap string Z)
    (h : string) (t0 : Z) :
  cache !! h = Some t0 ->
  Forall (fun call : string * Z * Z => call.2 <= t0 + 600000) calls ->
  Middleware.checkThenMarkAll cache calls !! h = Some t0.
Proof.
  revert cache. induction calls as [|call calls IH]; intros cache Hin Hall; [done|].
  apply Forall_cons in Hall as [Hcall Hall]. cbn.
  apply IH; [|done]. by apply checkThenMark_retains.
Qed.



(** X18.  In the middleware, a request whose proof hash is in the cache is
    answered with the 403 "already used" and leaves the cache as it is,
    whatever the proof's timestamp and signature: the cache is consulted
    before either is looked at. *)
Lemma start_rejects_used_proof (E : Externals) (cfg : Middleware.PaymentMiddlewareConfig)
    (cache : gmap string Z) (req : request) (challenge : string) (header : transport)
    (proof : jsval) (h : string) (t0 now : Z) :
  Middleware.getChallengeForRoute cfg (path req) = Some challenge ->
  proofHeader req = Some header ->
  Middleware.decodeProof header = Ok proof ->
  Middleware.proofHashOf E proof = Ok h ->
  cache !! h = Some t0 ->
  Middleware.start E cfg cache req now =
    (cache, Middleware.Finished
              (Middleware.errorWith 403 "Payment proof already used"
                 "This payment proof has been used already. Please make a new payment.")).
Proof.
  intros Hroute Hheader Hdec Hhash Hin. unfold Middleware.start, Middleware.checkProof.
  rewrite Hroute, Hheader, Hdec. cbn. rewrite Hhash. cbn.
  by rewrite (isProofUsedInCache_true _ _ _ Hin).
Qed.


(** Served one after the other, the second of the two is rejected. *)
Lemma sequential_requests_one_granted :
  map fst (List.filter Middleware.isGrant
             (Middleware.replies
                (Middleware.serveAll Samples.E Samples.config Middleware.idle
                   [Middleware.Arrive Samples.paidRequest Samples.arrival;
                    Middleware.Settle 0 true (Samples.arrival + 50);
                    Middleware.Arrive Samples.paidRequest Samples.arrival;
                    Middleware.Settle 1 true (Samples.arrival + 60)])))
  = [0%nat].
Proof. by vm_compute. Qed.

(** X19.  A hash is accepted again once its entry was swept: the cache
    forgets an entry at the first insert of another hash made more than ten
    minutes after it. *)
Lemma accepted_again_after_sweep (cache : gmap string Z) (h h' : string) (t0 tSet tSweep t s : Z) :
  cache !! h = Some t0 -> h' <> h -> t0 + 600000 < tSweep ->
  (Middleware.checkThenMark (Middleware.markProofInCache cache h' tSet tSweep) h t s).1 = true.
Proof.
  intros Hin Hne Hclock. unfold Middleware.checkThenMark.
  by rewrite isProofUsedInCache_false by by eapply markProofInCache_evicts.
Qed.

(** ** The client's retry *)

Lemma runs_bind {A B : Type} (m : Client.io A) (k : A -> Client.io B)
    (tr : list Client.event) (r : result B) :
  Client.runs (m ≫= k) tr r ->
  (exists a tr1 tr2, Client.runs m tr1 (Ok a) /\ Client.runs (k a) tr2 r /\ tr = tr1 ++ tr2)
  \/ (exists msg, Client.runs m tr (Throw msg) /\ r = Throw msg).
Proof.
  revert tr. induction m as [a|msg|X c k' IH]; intros tr Hrun; cbn in Hrun.
  - left. exists a, [], tr. cbn. eauto.
  - destruct Hrun as [-> ->]. right. exists msg. cbn. eauto.
  - destruct Hrun as [(x & tr' & -> & Hrun)|(msg & -> & ->)].
    + destruct (IH x tr' Hrun) as [(a & tr1 & tr2 & H1 & H2 & ->)|(msg & H1 & ->)].
      * left. exists a, (Client.Resolved c x :: tr1), tr2. split_and!; [|done|done].
        left. by exists x, tr1.
      * right. exists msg. split; [|done]. left. by exists x, tr'.
    + right. exists msg. split; [|done]. right. by exists msg.
Qed.

Lemma occurrences_app (P : Client.event -> bool) (tr1 tr2 : list Client.event) :
  Client.occurrences P (tr1 ++ tr2) = (Client.occurrences P tr1 + Client.occurrences P tr2)%nat.
Proof. unfold Client.occurrences. by rewrite List.filter_app, length_app. Qed.

Lemma atMost_weaken {A : Type} (P : Client.event -> bool) (n n' : nat) (p : Client.io A) :
  Client.atMost P n p -> (n <= n')%nat -> Client.atMost P n' p.
Proof. intros H Hle tr r Hrun. specialize (H tr r Hrun). lia. Qed.

Lemma atMost_return {A : Type} (P : Client.event -> bool) (n : nat) (a : A) :
  Client.atMost P n (Client.Return a).
Proof. intros tr r [-> _]. unfold Client.occurrences. cbn. lia. Qed.

Lemma atMost_raise {A : Type} (P : Client.event -> bool) (n : nat) (m : string) :
  Client.atMost P n (Client.Raise (A:=A) m).
Proof. intros tr r [-> _]. unfold Client.occurrences. cbn. lia. Qed.

Lemma atMost_lift {A : Type} (P : Client.event -> bool) (n : nat) (x : result A) :
  Client.atMost P n (Client.lift x).
Proof. destruct x; [apply atMost_return | apply atMost_raise]. Qed.

Lemma atMost_await {X : Type} (P : Client.event -> bool) (n : nat) (c : Client.call X) :
  Client.atMost P (S n) (Client.await c).
Proof.
  intros tr r [(x & tr' & -> & -> & _)|(m & -> & _)];
    unfold Client.occurrences; cbn; destruct (P _); cbn; lia.
Qed.

Lemma atMost_await_other {X : Type} (P : Client.event -> bool) (n : nat) (c : Client.call X) :
  (forall x, P (Client.Resolved c x) = false) ->
  (forall m, P (Client.Rejected c m) = false) ->
  Client.atMost P n (Client.await c).
Proof.
  intros Hres Hrej tr r [(x & tr' & -> & -> & _)|(m & -> & _)];
    unfold Client.occurrences; cbn; rewrite ?Hres, ?Hrej; cbn; lia.
Qed.

Lemma atMost_bind {A B : Type} (P : Client.event -> bool) (n1 n2 : nat)
    (m : Client.io A) (k : A -> Client.io B) :
  Client.atMost P n1 m -> (forall a, Client.atMost P n2 (k a)) ->
  Client.atMost P (n1 + n2) (m ≫= k).
Proof.
  intros Hm Hk tr r Hrun.
  destruct (runs_bind _ _ _ _ Hrun) as [(a & tr1 & tr2 & H1 & H2 & ->)|(msg & H1 & ->)].
  - rewrite occurrences_app. specialize (Hm _ _ H1). specialize (Hk _ _ _ H2). lia.
  - specialize (Hm _ _ H1). lia.
Qed.

Lemma atMost_bind_quiet {A B : Type} (P : Client.event -> bool) (n : nat)
    (m : Client.io A) (k : A -> Client.io B) :
  Client.atMost P 0 m -> (forall a, Client.atMost P n (k a)) ->
  Client.atMost P n (m ≫= k).
Proof. apply (atMost_bind P 0 n). Qed.

Lemma atMost_bind_once {A B : Type} (P : Client.event -> bool) (n : nat)
    (m : Client.io A) (k : A -> Client.io B) :
  Client.atMost P 1 m -> (forall a, Client.atMost P n (k a)) ->
  Client.atMost P (S n) (m ≫= k).
Proof. apply (atMost_bind P 1 n). Qed.

(** Bounds the occurrences of an event along the structure of a client
    function: a part that cannot produce the event costs nothing, one that
    can produce it once is charged once. *)
Ltac bound :=
  first
    [ apply atMost_return
    | apply atMost_raise
    | apply atMost_lift
    | apply atMost_await_other; intros; reflexivity
    | apply atMost_await
    | match goal with
      | |- Client.atMost _ _ (Client.executePayment _ _) =>
          unfold Client.executePayment; bound
      | |- Client.atMost _ _ (Client.pay _ _ _) => unfold Client.pay; bound
      | |- Client.atMost _ _ (match ?x with _ => _ end) => destruct x; bound
      end
    | apply atMost_bind_quiet; [solve [bound] | intros ?; bound]
    | apply atMost_bind_once; [solve [bound] | intros ?; bound] ].

Lemma pay_events (E : Externals) (opts : Client.ClientOptions) (challengeString : jsval) :
  Client.atMost Client.isTransfer 1 (Client.pay E opts challengeString)
  /\ Client.atMost Client.isRetry 0 (Client.pay E opts challengeString)
  /\ Client.atMost Client.isFetch 0 (Client.pay E opts challengeString).
Proof. split_and!; bound. Qed.

Lemma retryIsLast_nil (r : result Client.response) : Client.retryIsLast [] r.
Proof. intros pre e post Heq. by destruct pre. Qed.

Lemma retryIsLast_quiet (tr1 tr2 : list Client.event) (r : result Client.response) :
  Client.occurrences Client.isRetry tr1 = 0%nat ->
  Client.retryIsLast tr2 r -> Client.retryIsLast (tr1 ++ tr2) r.
Proof.
  induction tr1 as [|e1 tr1 IH]; intros Hquiet Hlast; [done|].
  unfold Client.occurrences in Hquiet. cbn in Hquiet.
  destruct (Client.isRetry e1) eqn:He1; [discriminate|].
  intros pre e post Heq Hretry. destruct pre as [|p pre]; cbn in Heq.
  - injection Heq as -> _. congruence.
  - injection Heq as _ Heq. by apply (IH Hquiet Hlast pre e post).
Qed.

Lemma retryIsLast_bind {A : Type} (m : Client.io A) (k : A -> Client.io Client.response) :
  Client.atMost Client.isRetry 0 m ->
  (forall a tr r, Client.runs (k a) tr r -> Client.retryIsLast tr r) ->
  forall tr r, Client.runs (m ≫= k) tr r -> Client.retryIsLast tr r.
Proof.
  intros Hm Hk tr r Hrun.
  destruct (runs_bind _ _ _ _ Hrun) as [(a & tr1 & tr2 & H1 & H2 & ->)|(msg & H1 & ->)].
  - apply retryIsLast_quiet; [|by eapply Hk]. specialize (Hm _ _ H1). lia.
  - rewrite <- (app_nil_r tr). apply retryIsLast_quiet; [|apply retryIsLast_nil].
    specialize (Hm _ _ H1). lia.
Qed.

Lemma retryIsLast_await (url : string) (header : option transport)
    (tr : list Client.event) (r : result Client.response) :
  Client.runs (Client.await (Client.HttpFetch url header)) tr r -> Client.retryIsLast tr r.
Proof.
  intros [(x & tr' & -> & -> & ->)|(m & -> & ->)] pre e post Heq _.
  - destruct pre as [|p [|? ?]]; [|discriminate..]. injection Heq as <- <-.
    split; [done|]. cbn. congruence.
  - destruct pre as [|p [|? ?]]; [|discriminate..]. injection Heq as <- <-.
    split; [done|]. cbn. congruence.
Qed.

(** C9.  Whatever the server and the chain answer, a run of [client.fetch]
    makes at most two HTTP requests and at most one transfer; the request
    that carries the proof, if there is one, is the last event of the run,
    and the response it resolves to, a 402 included, is what [fetch]
    returns. *)
Theorem fetch_retries_at_most_once (E : Externals) (opts : Client.ClientOptions)
    (url : string) (tr : list Client.event) (r : result Client.response) :
  Client.runs (Client.fetch E opts url) tr r ->
  (Client.occurrences Client.isFetch tr <= 2)%nat
  /\ (Client.occurrences Client.isTransfer tr <= 1)%nat
  /\ Client.retryIsLast tr r.
Proof.
  intros Hrun. split_and!.
  - revert tr r Hrun. change (Client.atMost Client.isFetch 2 (Client.fetch E opts url)).
    unfold Client.fetch. bound.
  - revert tr r Hrun. change (Client.atMost Client.isTransfer 1 (Client.fetch E opts url)).
    unfold Client.fetch. bound.
  - revert tr r Hrun. unfold Client.fetch.
    apply retryIsLast_bind; [bound|]. intros response.
    destruct (_ && _).
    + apply retryIsLast_bind; [bound|]. intros body.
      apply retryIsLast_bind; [bound|]. intros c1.
      apply retryIsLast_bind; [bound|]. intros challengeString.
      destruct (truthy challengeString).
      * apply retryIsLast_bind; [bound|]. intros proof. apply retryIsLast_await.
      * intros tr r [-> _]. apply retryIsLast_nil.
    + intros tr r [-> _]. apply retryIsLast_nil.
Qed.

(** Building a run step by step. *)
Lemma runs_bind_ok {A B : Type} (m : Client.io A) (k : A -> Client.io B)
    (tr1 tr2 : list Client.event) (a : A) (r : result B) :
  Client.runs m tr1 (Ok a) -> Client.runs (k a) tr2 r -> Client.runs (m ≫= k) (tr1 ++ tr2) r.
Proof.
  revert tr1. induction m as [a'|msg|X c k' IH]; intros tr1 Hm Hk; cbn in Hm.
  - destruct Hm as [-> [= ->]]. done.
  - by destruct Hm as [_ ?].
  - destruct Hm as [(x & tr' & -> & Hm)|(msg & _ & ?)]; [|done].
    left. exists x, (tr' ++ tr2). split; [done|]. by apply IH.
Qed.

Lemma runs_lift_bind {A B : Type} (x : result A) (k : A -> Client.io B) (a : A)
    (tr : list Client.event) (r : result B) :
  x = Ok a -> Client.runs (k a) tr r -> Client.runs (Client.lift x ≫= k) tr r.
Proof. by intros -> ?. Qed.

Lemma runs_await_bind {X B : Type} (c : Client.call X) (k : X -> Client.io B) (x : X)
    (tr : list Client.event) (r : result B) :
  Client.runs (k x) tr r -> Client.runs (Client.await c ≫= k) (Client.Resolved c x :: tr) r.
Proof. intros Hk. left. by exists x, tr. Qed.

Lemma runs_await {X : Type} (c : Client.call X) (x : X) :
  Client.runs (Client.await c) [Client.Resolved c x] (Ok x).
Proof. left. by exists x, []. Qed.

Lemma executePayment_sample_run :
  Client.runs (Client.executePayment Samples.E Samples.challenge)
    [Client.Resolved (Client.BalanceOf Samples.usdc) 5000;
     Client.Resolved (Client.Transfer Samples.usdc (JStr Samples.merchant) 1000)
       (JStr Samples.txHash);
     Client.Resolved (Client.Wait (JStr Samples.txHash)) tt]
    (Ok (JStr Samples.txHash)).
Proof.
  unfold Client.executePayment.
  apply (runs_lift_bind _ _ (Some Samples.usdc)); [by vm_compute|].
  apply (runs_lift_bind _ _ 1000); [by vm_compute|].
  cbv beta iota. apply runs_await_bind. cbv beta.
  replace (5000 <? 1000) with false by done.
  apply runs_await_bind. apply runs_await_bind. done.
Qed.

Lemma pay_sample_run :
  Client.runs (Client.pay Samples.E Samples.clientOptions (JStr Samples.challengeString))
    [Client.Resolved (Client.BalanceOf Samples.usdc) 5000;
     Client.Resolved (Client.Transfer Samples.usdc (JStr Samples.merchant) 1000)
       (JStr Samples.txHash);
     Client.Resolved (Client.Wait (JStr Samples.txHash)) tt;
     Client.Resolved Client.DateNow 1700000007250;
     Client.Resolved (Client.SignMessage Samples.clientProofHash) (JStr Samples.signature)]
    (Ok Samples.clientHeader).
Proof.
  unfold Client.pay.
  apply (runs_lift_bind _ _ Samples.challenge); [by vm_compute|].
  change (Client.nonce Samples.challenge) with JNull.
  change (Client.verifierAddress Samples.clientOptions) with (@None string).
  cbv beta iota.
  apply (runs_bind_ok (Client.Return (JNum 0)) _ [] _ (JNum 0)); [done|].
  apply (runs_bind_ok _ _
           [Client.Resolved (Client.BalanceOf Samples.usdc) 5000;
            Client.Resolved (Client.Transfer Samples.usdc (JStr Samples.merchant) 1000)
              (JStr Samples.txHash);
            Client.Resolved (Client.Wait (JStr Samples.txHash)) tt]
           [Client.Resolved Client.DateNow 1700000007250;
            Client.Resolved (Client.SignMessage Samples.clientProofHash)
              (JStr Samples.signature)]
           (JStr Samples.txHash)); [apply executePayment_sample_run|].
  apply runs_await_bind. cbv beta zeta.
  change (1700000007250 `div` 1000) with 1700000007.
  apply (runs_lift_bind _ _ Samples.clientProofHash); [by vm_compute|].
  apply runs_await_bind.
  replace (Client.encode Samples.E _ (JStr Samples.signature)) with (Ok Samples.clientHeader)
    by by vm_compute.
  done.
Qed.

Lemma fetch_retries_at_most_once_witness :
  (Client.occurrences Client.isFetch Samples.retriedRun <= 2)%nat
  /\ (Client.occurrences Client.isTransfer Samples.retriedRun <= 1)%nat
  /\ Client.retryIsLast Samples.retriedRun (Ok Samples.paymentRequired).
Proof.
  apply (fetch_retries_at_most_once Samples.E Samples.clientOptions "/premium-data").
  unfold Samples.retriedRun, Client.fetch.
  apply runs_await_bind.
  replace (_ && _) with true by done.
  apply (runs_lift_bind _ _ (JObj [("error", JStr "Payment required");
                                   ("challenge", JStr Samples.challengeString)]));
    [done|].
  apply (runs_lift_bind _ _ (JStr Samples.challengeString)); [done|].
  replace (truthy (JStr Samples.challengeString)) with true by done. cbv iota.
  apply (runs_bind_ok (Client.Return (JStr Samples.challengeString)) _ [] _
           (JStr Samples.challengeString)); [done|].
  replace (truthy (JStr Samples.challengeString)) with true by done. cbv iota.
  apply (runs_bind_ok _ _
           [Client.Resolved (Client.BalanceOf Samples.usdc) 5000;
            Client.Resolved (Client.Transfer Samples.usdc (JStr Samples.merchant) 1000)
              (JStr Samples.txHash);
            Client.Resolved (Client.Wait (JStr Samples.txHash)) tt;
            Client.Resolved Client.DateNow 1700000007250;
            Client.Resolved (Client.SignMessage Samples.clientProofHash)
              (JStr Samples.signature)]
           [Client.Resolved (Client.HttpFetch "/premium-data" (Some Samples.clientHeader))
              Samples.paymentRequired]
           Samples.clientHeader); [apply pay_sample_run|].
  apply runs_await.
Defined.

(** ** The verifier contract *)

Lemma markProofUsed_inv (C : PaymentVerifier.Crypto) (s s' : PaymentVerifier.storage)
    (now : Z) (a : PaymentVerifier.proofArgs) :
  PaymentVerifier.markProofUsed C s now a = Ok s' ->
  exists payer,
    PaymentVerifier.recover C
      (PaymentVerifier.toEthSignedMessageHash C (PaymentVerifier.proofHashOf C a))
      (PaymentVerifier.signature a) = Ok payer
    /\ PaymentVerifier.isProofUsed s (PaymentVerifier.proofHashOf C a) = false
    /\ PaymentVerifier.getNonce s payer = PaymentVerifier.nonce a
    /\ PaymentVerifier.getNonce s payer + 1 <= PaymentVerifier.maxUint256
    /\ s' = {| PaymentVerifier.usedProofs :=
                 <[PaymentVerifier.proofHashOf C a := true]> (PaymentVerifier.usedProofs s);
               PaymentVerifier.nonces :=
                 <[payer := PaymentVerifier.getNonce s payer + 1]> (PaymentVerifier.nonces s) |}.
Proof.
  unfold PaymentVerifier.markProofUsed, PaymentVerifier.verifyPaymentProof,
    PaymentVerifier.checkedAdd, PaymentVerifier.require.
  intros H.
  destruct (_ + 300 <=? _); cbn in H; [|discriminate].
  destruct (now <=? _); cbn in H; [|discriminate].
  destruct (now + 60 <=? _); cbn in H; [|discriminate].
  destruct (_ <=? now + 60); cbn in H; [|discriminate].
  destruct (PaymentVerifier.isProofUsed s _) eqn:Hused; cbn in H; [discriminate|].
  destruct (PaymentVerifier.recover C _ _) as [payer|] eqn:Hrec; cbn in H; [|discriminate].
  destruct (_ =? PaymentVerifier.nonce a) eqn:Hnonce; cbn in H; [|discriminate].
  destruct (_ + 1 <=? _) eqn:Hfit; cbn in H; [|discriminate].
  injection H as <-. exists payer. split_and!; [done|done|lia|lia|done].
Qed.

Lemma markProofUsed_used (C : PaymentVerifier.Crypto) (s : PaymentVerifier.storage)
    (now : Z) (a : PaymentVerifier.proofArgs) :
  PaymentVerifier.isProofUsed s (PaymentVerifier.proofHashOf C a) = true ->
  exists reason, PaymentVerifier.markProofUsed C s now a = Throw reason.
Proof.
  intros Hused.
  destruct (PaymentVerifier.markProofUsed C s now a) as [s'|reason] eqn:H; [|eauto].
  apply markProofUsed_inv in H as (payer & _ & Hfree & _). congruence.
Qed.

(** The used-set only grows. *)
Lemma transact_keeps_used (C : PaymentVerifier.Crypto) (s : PaymentVerifier.storage)
    (tx : Z * PaymentVerifier.proofArgs) (h : Z) :
  PaymentVerifier.isProofUsed s h = true ->
  PaymentVerifier.isProofUsed (PaymentVerifier.transact C s tx) h = true.
Proof.
  intros Hused. unfold PaymentVerifier.transact.
  destruct (PaymentVerifier.markProofUsed C s tx.1 tx.2) as [s'|] eqn:H; [|done].
  apply markProofUsed_inv in H as (payer & _ & _ & _ & _ & ->).
  unfold PaymentVerifier.isProofUsed in *. cbn.
  destruct (decide (PaymentVerifier.proofHashOf C tx.2 = h)) as [->|Hne].
  - by rewrite lookup_insert_eq.
  - by rewrite lookup_insert_ne.
Qed.

Lemma transactAll_keeps_used (C : PaymentVerifier.Crypto)
    (txs : list (Z * PaymentVerifier.proofArgs)) (s : PaymentVerifier.storage) (h : Z) :
  PaymentVerifier.isProofUsed s h = true ->
  PaymentVerifier.isProofUsed (PaymentVerifier.transactAll C s txs) h = true.
Proof.
  revert s. induction txs as [|tx txs IH]; intros s Hused; [done|].
  cbn. apply IH. by apply transact_keeps_used.
Qed.

(** C8.  A [markProofUsed] call that succeeds records the proof's hash in
    the used-set and raises the signer's nonce by one.  After it, whatever
    [markProofUsed] transactions follow, a further [markProofUsed] call for
    the same proof reverts, and as a transaction it leaves the used-set and
    the nonces as they were. *)
Theorem markProofUsed_at_most_once (C : PaymentVerifier.Crypto)
    (s s' : PaymentVerifier.storage) (now : Z) (a : PaymentVerifier.proofArgs) :
  PaymentVerifier.markProofUsed C s now a = Ok s' ->
  exists signer,
    PaymentVerifier.recover C
      (PaymentVerifier.toEthSignedMessageHash C (PaymentVerifier.proofHashOf C a))
      (PaymentVerifier.signature a) = Ok signer
    /\ PaymentVerifier.isProofUsed s' (PaymentVerifier.proofHashOf C a) = true
    /\ PaymentVerifier.getNonce s' signer = PaymentVerifier.getNonce s signer + 1
    /\ forall (between : list (Z * PaymentVerifier.proofArgs)) (later : Z),
         let s'' := PaymentVerifier.transactAll C s' between in
         (exists reason, PaymentVerifier.markProofUsed C s'' later a = Throw reason)
         /\ PaymentVerifier.transact C s'' (later, a) = s''.
Proof.
  intros Hmark.
  destruct (markProofUsed_inv _ _ _ _ _ Hmark) as (payer & Hrec & _ & _ & _ & ->).
  exists payer.
  assert (Hused : PaymentVerifier.isProofUsed
                    {| PaymentVerifier.usedProofs :=
                         <[PaymentVerifier.proofHashOf C a := true]>
                           (PaymentVerifier.usedProofs s);
                       PaymentVerifier.nonces :=
                         <[payer := PaymentVerifier.getNonce s payer + 1]>
                           (PaymentVerifier.nonces s) |}
                    (PaymentVerifier.proofHashOf C a) = true).
  { unfold PaymentVerifier.isProofUsed. cbn. by rewrite lookup_insert_eq. }
  split_and!; [done|done| |].
  - unfold PaymentVerifier.getNonce at 1. cbn. by rewrite lookup_insert_eq.
  - intros between later s''.
    destruct (markProofUsed_used C s'' later a) as [reason Hrevert].
    { by apply transactAll_keeps_used. }
    split; [eauto|]. unfold PaymentVerifier.transact. cbn. by rewrite Hrevert.
Qed.

Lemma markProofUsed_at_most_once_witness :
  exists signer,
    PaymentVerifier.recover Reference.crypto
      (PaymentVerifier.toEthSignedMessageHash Reference.crypto
         (PaymentVerifier.proofHashOf Reference.crypto Samples.onChainProof))
      (PaymentVerifier.signature Samples.onChainProof) = Ok signer
    /\ PaymentVerifier.isProofUsed
         (PaymentVerifier.transact Reference.crypto Samples.freshStorage
            (1700000010, Samples.onChainProof))
         (PaymentVerifier.proofHashOf Reference.crypto Samples.onChainProof) = true
    /\ PaymentVerifier.getNonce
         (PaymentVerifier.transact Reference.crypto Samples.freshStorage
            (1700000010, Samples.onChainProof)) signer
       = PaymentVerifier.getNonce Samples.freshStorage signer + 1
    /\ forall (between : list (Z * PaymentVerifier.proofArgs)) (later : Z),
         let s'' := PaymentVerifier.transactAll Reference.crypto
                      (PaymentVerifier.transact Reference.crypto Samples.freshStorage
                         (1700000010, Samples.onChainProof)) between in
         (exists reason,
             PaymentVerifier.markProofUsed Reference.crypto s'' later Samples.onChainProof
               = Throw reason)
         /\ PaymentVerifier.transact Reference.crypto s'' (later, Samples.onChainProof) = s''.
Proof.
  apply (markProofUsed_at_most_once Reference.crypto Samples.freshStorage _ 1700000010
           Samples.onChainProof).
  unfold PaymentVerifier.transact.
  by destruct (PaymentVerifier.markProofUsed Reference.crypto Samples.freshStorage
                 (1700000010, Samples.onChainProof).1 (1700000010, Samples.onChainProof).2)
    eqn:H; [|vm_compute in H].
Defined.

(** ** Verifying the payment transaction *)

(** X22.  The stand-alone verifier returns [true] for a token payment only
    when the token address is a string, for a transaction sent to that
    contract whose call data is a [transfer] to the expected recipient of at
    least the expected amount in minor units (six decimals). *)
Lemma standalone_token_payment_verified (E : Externals) (P : Provider) (txHash : jsval)
    (expectedRecipient expectedAmount : string) (tokenAddress : jsval) (b : bool) :
  Standalone.nativeBranch tokenAddress = false ->
  Standalone.verifyPaymentTransaction E P txHash expectedRecipient expectedAmount
    tokenAddress = Ok b ->
  exists tx target contract dest amount expectedWei,
    getTransaction P txHash = Ok (Some tx)
    /\ to tx = Some target
    /\ tokenAddress = JStr contract
    /\ toLowerCase target = toLowerCase contract
    /\ data tx = CallTransfer dest amount
    /\ toLowerCase dest = toLowerCase expectedRecipient
    /\ parseUnits E (JStr expectedAmount) 6 = Ok expectedWei
    /\ expectedWei <= amount
    /\ b = true.
Proof.
  intros Hbranch. unfold Standalone.verifyPaymentTransaction. rewrite Hbranch.
  destruct (getTransaction P txHash) as [[tx|]|] eqn:Htx; cbn; [|discriminate..].
  destruct (to tx) as [target|] eqn:Hto; cbn; [|discriminate].
  destruct tokenAddress as [| | | | |contract| |]; cbn; try discriminate.
  destruct (String.eqb (toLowerCase target) (toLowerCase contract)) eqn:Htarget;
    cbn; [|discriminate].
  destruct (data tx) as [dest amount| | |] eqn:Hdata; [|discriminate..].
  destruct (String.eqb (toLowerCase dest) (toLowerCase expectedRecipient)) eqn:Hdest;
    cbn; [|discriminate].
  destruct (parseUnits E (JStr expectedAmount) 6) as [expectedWei|] eqn:Hwei;
    cbn; [|discriminate].
  destruct (amount <? expectedWei) eqn:Hlt; [discriminate|].
  intros [= <-]. exists tx, target, contract, dest, amount, expectedWei.
  apply String.eqb_eq in Htarget, Hdest. split_and!; try done. lia.
Qed.

(** X23.  A call to another contract, and an [approve] on the token
    contract, make the stand-alone verifier throw: "Transaction not to token
    contract" and "Transaction is not a valid transfer". *)
Lemma standalone_not_a_transfer (E : Externals) (P : Provider) (txHash : jsval)
    (expectedRecipient expectedAmount tokenAddress target : string) (tx : transaction) :
  Standalone.nativeBranch (JStr tokenAddress) = false ->
  getTransaction P txHash = Ok (Some tx) ->
  to tx = Some target ->
  (toLowerCase target <> toLowerCase tokenAddress ->
   Standalone.verifyPaymentTransaction E P txHash expectedRecipient expectedAmount
     (JStr tokenAddress) = Throw "Transaction not to token contract")
  /\ (toLowerCase target = toLowerCase tokenAddress ->
      forall spender amount, data tx = CallApprove spender amount ->
      Standalone.verifyPaymentTransaction E P txHash expectedRecipient expectedAmount
        (JStr tokenAddress) = Throw "Transaction is not a valid transfer").
Proof.
  intros Hbranch Htx Hto. unfold Standalone.verifyPaymentTransaction.
  rewrite Hbranch, Htx. cbn. rewrite Hto. cbn. split.
  - intros Hne. apply String.eqb_neq in Hne. by rewrite Hne.
  - intros Heq spender amount Hdata. apply String.eqb_eq in Heq. rewrite Heq. cbn.
    by rewrite Hdata.
Qed.

(** X21.  The SDK verifier accepts every confirmed, successful transaction
    whose call data is not a [transfer]: it looks neither at the contract
    called nor at the proof's token. *)
Lemma sdk_accepts_any_other_call (P : Provider) (proof txHash : jsval) (tx : transaction)
    (b : Z) :
  getProp proof "txHash" = Ok txHash ->
  getTransaction P txHash = Ok (Some tx) ->
  blockNumber tx = Some b -> b <> 0 ->
  getTransactionReceipt P txHash = Ok (Some {| receiptStatus := Some 1 |}) ->
  (data tx = CallOther \/ exists spender amount, data tx = CallApprove spender amount) ->
  Middleware.verifyPaymentTransaction P proof = true.
Proof.
  intros Hhash Htx Hblock Hb Hrc Hdata. unfold Middleware.verifyPaymentTransaction.
  rewrite Hhash. cbn. rewrite Htx. cbn. rewrite Hblock.
  replace (b =? 0) with false by lia. rewrite Hrc. cbn.
  by destruct Hdata as [-> | (spender & amount & ->)].
Qed.

(** C5.  The SDK verifier, given a proof whose token is the USDC contract,
    returns [true] for a transaction that is sent to an unrelated address
    and calls nothing, and for an [approve] call on the token contract.  The
    stand-alone verifier rejects both, the first as not sent to the token
    contract, the second as not a transfer. *)
Theorem sdk_verifier_accepts_non_transfer :
  getProp (JObj (Samples.decoded 7)) "token" = Ok (JStr Samples.usdc)
  /\ Middleware.verifyPaymentTransaction (Samples.chainWith Samples.strayTransaction)
       (JObj (Samples.decoded 7)) = true
  /\ Middleware.verifyPaymentTransaction (Samples.chainWith Samples.approveTransaction)
       (JObj (Samples.decoded 7)) = true
  /\ Standalone.verifyPaymentTransaction Samples.E (Samples.chainWith Samples.strayTransaction)
       (JStr Samples.txHash) Samples.merchant "0.001" (JStr Samples.usdc)
     = Throw "Transaction not to token contract"
  /\ Standalone.verifyPaymentTransaction Samples.E
       (Samples.chainWith Samples.approveTransaction)
       (JStr Samples.txHash) Samples.merchant "0.001" (JStr Samples.usdc)
     = Throw "Transaction is not a valid transfer".
Proof. by vm_compute. Qed.

(** ** Resolving the token address *)



Lemma nativeBranch_null_or_zero :
  Standalone.nativeBranch JNull = true /\ Standalone.nativeBranch (JStr ZeroAddress) = true.
Proof. done. Qed.






(** ** Recipient and amount against the challenge *)

(** C4, as the code has it.  In the stand-alone middleware, for a proof that
    holds truthy txHash, signature, recipient and amount, whose recipient is
    a string and whose signature recovers: when the lower-cased recipients
    differ the reply is the 403 "Payment recipient mismatch"; when they agree
    and [parseFloat(proof.amount) < parseFloat(challenge.amount)] the reply
    is the 403 "Insufficient payment amount"; otherwise the proof goes on to
    the transaction check.  The two amounts are compared as the numbers their
    texts spell, with no conversion of units. *)
Theorem standalone_recipient_and_amount (E : Externals) (opts : Standalone.options)
    (P : Provider) (c : Standalone.challenge) (header : transport)
    (proof txHash signature amount : jsval) (recipient signer : string) :
  Standalone.decodeProof header = Ok proof ->
  getProp proof "txHash" = Ok txHash ->
  getProp proof "signature" = Ok signature ->
  getProp proof "recipient" = Ok (JStr recipient) ->
  getProp proof "amount" = Ok amount ->
  truthy txHash = true -> truthy signature = true ->
  truthy (JStr recipient) = true -> truthy amount = true ->
  Standalone.verifyProofSignature E proof = Ok signer ->
  (toLowerCase recipient <> toLowerCase (Standalone.recipient c) ->
   Standalone.verifyProof E opts P c header
   = Ok (Respond 403 [("error", JStr "Payment recipient mismatch");
                      ("expected", JStr (Standalone.recipient c));
                      ("received", JStr recipient)]))
  /\ (toLowerCase recipient = toLowerCase (Standalone.recipient c) ->
      floatLt E (parseFloat E amount) (parseFloat E (JStr (Standalone.amount c))) = true ->
      Standalone.verifyProof E opts P c header
      = Ok (Respond 403 [("error", JStr "Insufficient payment amount");
                         ("required", JStr (Standalone.amount c));
                         ("received", amount)]))
  /\ (toLowerCase recipient = toLowerCase (Standalone.recipient c) ->
      floatLt E (parseFloat E amount) (parseFloat E (JStr (Standalone.amount c))) = false ->
      Standalone.verifyProof E opts P c header
      = (_ ← (if Standalone.verifyTransaction opts
              then
                tokenAddress ← Standalone.getTokenAddress E (Standalone.chain c)
                                 (Standalone.token c);
                Standalone.verifyPaymentTransaction E P txHash (Standalone.recipient c)
                  (Standalone.amount c) tokenAddress
              else Ok true);
         Ok (CallNext [("paymentSigner", JStr signer)]))).
Proof.
  intros Hdec Htx Hsig Hrec Hamt Ttx Tsig Trec Tamt Hsigner.
  unfold Standalone.verifyProof. rewrite Hdec. cbn.
  rewrite Htx. cbn. rewrite Hsig. cbn. rewrite Hrec. cbn. rewrite Hamt. cbn.
  rewrite Ttx, Tsig, Tamt. cbn in Trec. rewrite Trec. cbn. rewrite Hsigner. cbn.
  split_and!.
  - intros Hne. apply String.eqb_neq in Hne. by rewrite Hne.
  - intros Heq Hlt. apply String.eqb_eq in Heq. rewrite Heq. cbn. by rewrite Hlt.
  - intros Heq Hlt. apply String.eqb_eq in Heq. rewrite Heq. cbn. by rewrite Hlt.
Qed.

Lemma standalone_recipient_and_amount_witness :
  Standalone.verifyProof Samples.E (Samples.standaloneOptions Samples.challengeString false)
    (Samples.chainWith Samples.strayTransaction)
    {| Standalone.token := "usdc"; Standalone.chain := "base_sepolia";
       Standalone.recipient := Samples.merchant; Standalone.amount := "0.001";
       Standalone.nonce := JNum 0 |}
    (Base64Json (JObj (Samples.standaloneProof "0.0005")))
  = Ok (Respond 403 [("error", JStr "Insufficient payment amount");
                     ("required", JStr "0.001");
                     ("received", JStr "0.0005")]).
Proof.
  destruct (standalone_recipient_and_amount Samples.E
              (Samples.standaloneOptions Samples.challengeString false)
              (Samples.chainWith Samples.strayTransaction)
              {| Standalone.token := "usdc"; Standalone.chain := "base_sepolia";
                 Standalone.recipient := Samples.merchant; Standalone.amount := "0.001";
                 Standalone.nonce := JNum 0 |}
              (Base64Json (JObj (Samples.standaloneProof "0.0005")))
              (JObj (Samples.standaloneProof "0.0005"))
              (JStr Samples.txHash) (JStr Samples.signature) (JStr "0.0005")
              Samples.merchant "0xa2b86E86353228a21E0EeFe1B3F4C417753A5088")
    as (_ & Hlow & _).
  1-9: reflexivity.
  - vm_compute. reflexivity.
  - apply Hlow; reflexivity.
Defined.

(** C4, as the specification words it, fails on the code: against the
    challenge of 0.001 USDC, which is 1000 minor units, a proof whose amount
    is 1 minor unit and whose recipient matches is not denied; the request is
    let through. *)
Lemma one_minor_unit_is_let_through :
  Samples.sufficientInMinorUnits 6 "1" "0.001" = Some false
  /\ exists signer,
       Standalone.paymentMiddleware Samples.E
         (Samples.standaloneOptions Samples.challengeString false)
         (Samples.chainWith Samples.strayTransaction)
         (Samples.standaloneRequest "1") 0
       = Ok (CallNext [("paymentSigner", JStr signer)]).
Proof. split; [by vm_compute|]. eexists. by vm_compute. Qed.

(** X20.  The SDK middleware does not read the challenge once a proof header
    is present: two configurations that differ only in the challenge
    configured for the route treat the request alike, so neither the
    recipient nor the amount of the proof is compared with the challenge. *)
Lemma sdk_ignores_challenge (E : Externals) (cfg cfg' : Middleware.PaymentMiddlewareConfig)
    (cache : gmap string Z) (req : request) (header : transport) (c c' : string) (now : Z) :
  Middleware.getChallengeForRoute cfg (path req) = Some c ->
  Middleware.getChallengeForRoute cfg' (path req) = Some c' ->
  proofHeader req = Some header ->
  Middleware.provider cfg = Middleware.provider cfg' ->
  Middleware.verifierContract cfg = Middleware.verifierContract cfg' ->
  Middleware.verifyOnChain cfg = Middleware.verifyOnChain cfg' ->
  Middleware.verifyTransaction cfg = Middleware.verifyTransaction cfg' ->
  Middleware.start E cfg cache req now = Middleware.start E cfg' cache req now.
Proof.
  intros Hc Hc' Hheader Hp Hv Ho Ht. unfold Middleware.start.
  rewrite Hc, Hc', Hheader.
  destruct (Middleware.checkProof E cache header now) as [[r|f]|m]; [done| |done].
  unfold Middleware.transactionStage, Middleware.onChainStage.
  by rewrite Hp, Hv, Ho, Ht.
Qed.

(** ** Parsing the challenge *)








(** * Further properties of the code *)

(** ** The cache of used proofs *)

(** X1.  After [markProofInCache], the cache holds exactly the new entry and
    the old entries of other hashes, each only if its time is no more than
    ten minutes (600000 ms) before the sweep: no entry older than that
    survives an insert, and an insert for a hash already present replaces
    its time. *)
Lemma markProofInCache_entries (cache : gmap string Z) (h k : string) (tSet tSweep t : Z) :
  Middleware.markProofInCache cache h tSet tSweep !! k = Some t
  <-> tSweep - 600000 <= t /\ ((k = h /\ t = tSet) \/ (k <> h /\ cache !! k = Some t)).
Proof.
  unfold Middleware.markProofInCache. rewrite map_lookup_filter_Some. cbn.
  destruct (decide (k = h)) as [->|Hne].
  - rewrite lookup_insert_eq. split.
    + intros [[= <-] Hkeep]. split; [lia|]. by left.
    + intros [Hkeep [[_ ->]|[Hne _]]]; [|done]. split; [done|lia].
  - rewrite lookup_insert_ne by done. split.
    + intros [Hin Hkeep]. split; [lia|]. by right.
    + intros [Hkeep [[-> _]|[_ Hin]]]; [done|]. split; [done|lia].
Qed.

Lemma checkProof_passed (E : Externals) (cache : gmap string Z) (header : transport)
    (now : Z) (f : Middleware.frame) :
  Middleware.checkProof E cache header now = Ok (inr f) ->
  exists timestamp,
    Middleware.decodeProof header = Ok (Middleware.proof f)
    /\ Middleware.proofHashOf E (Middleware.proof f) = Ok (Middleware.proofHash f)
    /\ Middleware.isProofUsedInCache cache (Middleware.proofHash f) = false
    /\ getProp (Middleware.proof f) "timestamp" = Ok timestamp
    /\ Middleware.timestampRejected E timestamp (now / 1000) = false
    /\ Middleware.verifyProofSignature E (Middleware.proof f) = Ok (Middleware.signer f).
Proof.
  unfold Middleware.checkProof. intros H.
  destruct (Middleware.decodeProof header) as [proof|] eqn:Hdec; cbn in H; [|discriminate].
  destruct (Middleware.proofHashOf E proof) as [h|] eqn:Hhash; cbn in H; [|discriminate].
  destruct (Middleware.isProofUsedInCache cache h) eqn:Hused; [discriminate|].
  destruct (getProp proof "timestamp") as [timestamp|] eqn:Hts; cbn in H; [|discriminate].
  destruct (Middleware.timestampRejected E timestamp (now / 1000)) eqn:Hrej; [discriminate|].
  destruct (Middleware.verifyProofSignature E proof) as [signer|] eqn:Hsig; cbn in H;
    [|discriminate].
  injection H as <-. cbn. by exists timestamp.
Qed.

(** X2.  A proof that passed the checks of the middleware once and was
    recorded never passes them again, as long as the clock does not run
    backwards: while its cache entry is retained the proof is answered as
    already used, and by the time a sweep can have evicted the entry (ten
    minutes) the timestamp check (five minutes) rejects the proof.  Here the
    proof passed at [t0], was recorded at [tg], other proofs were checked and
    inserted up to [t1], and the proof is presented again at [t1]. *)
Theorem recorded_proof_never_passes_again (E : Externals) (cache : gmap string Z)
    (header : transport) (f : Middleware.frame) (timestamp : jsval) (ts t0 tg t1 : Z)
    (calls : list (string * Z * Z)) :
  Middleware.checkProof E cache header t0 = Ok (inr f) ->
  getProp (Middleware.proof f) "timestamp" = Ok timestamp ->
  toNumber E timestamp = Some ts ->
  t0 <= tg -> tg <= t1 ->
  Forall (fun call : string * Z * Z => call.2 <= t1) calls ->
  exists r,
    Middleware.checkProof E
      (Middleware.checkThenMarkAll
         (Middleware.markProofInCache cache (Middleware.proofHash f) tg tg) calls)
      header t1 = Ok (inl r).
Proof.
  intros Hpass Hts Hnum Ht0 Htg Hcalls.
  destruct (checkProof_passed _ _ _ _ _ Hpass)
    as (timestamp' & Hdec & Hhash & _ & Hts' & Hfresh & _).
  assert (timestamp' = timestamp) as -> by congruence.
  unfold Middleware.checkProof. rewrite Hdec. cbn. rewrite Hhash. cbn.
  destruct (Middleware.isProofUsedInCache _ _) eqn:Hused; [eauto|].
  rewrite Hts. cbn.
  assert (Hlate : tg + 600000 < t1).
  { destruct (decide (t1 <= tg + 600000)) as [Hearly|]; [|lia].
    rewrite (isProofUsedInCache_true _ _ tg) in Hused; [done|].
    apply checkThenMarkAll_retains.
    - apply markProofInCache_inserted. lia.
    - eapply Forall_impl; [exact Hcalls|]. cbn. intros call Hcall. lia. }
  assert (Hrej : Middleware.timestampRejected E timestamp (t1 / 1000) = true).
  { unfold Middleware.timestampRejected, jsLt, jsGt in *. rewrite Hnum in *.
    apply orb_false_elim in Hfresh as [_ Hfuture].
    assert (t0 / 1000 + 600 <= t1 / 1000).
    { replace (t0 / 1000 + 600) with ((t0 + 600 * 1000) / 1000)
        by (rewrite Z.div_add by lia; lia).
      apply Z.div_le_mono; lia. }
    apply orb_true_intro. left. lia. }
  rewrite Hrej. eauto.
Qed.

Lemma recorded_proof_never_passes_again_witness :
  exists r,
    Middleware.checkProof Samples.E
      (Middleware.checkThenMarkAll
         (Middleware.markProofInCache ∅ Samples.proofHash 1700000010050 1700000010050)
         [("0xabcd", 1700000700000, 1700000700001)])
      (Base64Json (JObj (Samples.decoded 7))) 1700000700001 = Ok (inl r).
Proof.
  apply (recorded_proof_never_passes_again Samples.E ∅
           (Base64Json (JObj (Samples.decoded 7)))
           {| Middleware.stage := Middleware.AwaitVerifyTransaction;
              Middleware.proof := JObj (Samples.decoded 7);
              Middleware.proofHash := Samples.proofHash;
              Middleware.signer := "0xdD04f47C5d5430b6782Be4Bcbea03502b35FbA0d" |}
           (JNum 1700000000) 1700000000 Samples.arrival 1700000010050 1700000700001).
  - by vm_compute.
  - reflexivity.
  - reflexivity.
  - by vm_compute.
  - lia.
  - repeat constructor. cbn. lia.
Defined.


(** ** The transaction verifiers *)

(** X4.  The SDK verifier returns [true] only for a transaction that the
    provider knows, that has a non-zero block number and whose receipt has
    status 1; and if its call data is a [transfer], only when the
    destination equals the proof's recipient up to letter case and the
    amount, in decimal, equals the text of the proof's amount. *)
Theorem sdk_verified_transaction (P : Provider) (proof : jsval) :
  Middleware.verifyPaymentTransaction P proof = true ->
  exists txHash tx b,
    getProp proof "txHash" = Ok txHash
    /\ getTransaction P txHash = Ok (Some tx)
    /\ blockNumber tx = Some b /\ b <> 0
    /\ getTransactionReceipt P txHash = Ok (Some {| receiptStatus := Some 1 |})
    /\ data tx <> CallMalformed SelTransfer
    /\ forall dest amount, data tx = CallTransfer dest amount ->
         exists recipient claimed,
           getProp proof "recipient" = Ok (JStr recipient)
           /\ toLowerCase dest = toLowerCase recipient
           /\ getProp proof "amount" = Ok claimed
           /\ callToString claimed = Ok (pretty amount).
Proof.
  unfold Middleware.verifyPaymentTransaction. intros H.
  destruct (getProp proof "txHash") as [txHash|] eqn:Hhash; cbn in H; [|discriminate].
  destruct (getTransaction P txHash) as [[tx|]|] eqn:Htx; cbn in H; [|discriminate..].
  destruct (blockNumber tx) as [b|] eqn:Hblock; [|discriminate].
  destruct (b =? 0) eqn:Hb; [discriminate|].
  destruct (getTransactionReceipt P txHash) as [[[status]|]|] eqn:Hrc; cbn in H;
    [|discriminate..].
  destruct status as [[|[| |]|]|]; try discriminate.
  exists txHash, tx, b. split_and!; try done; [lia| |].
  - intros Hbad. by rewrite Hbad in H.
  - intros dest amount Hdata. rewrite Hdata in H.
    destruct (getProp proof "recipient") as [recipient|] eqn:Hrec; cbn in H; [|discriminate].
    destruct recipient as [| | | | |recipient| |]; cbn in H; try discriminate.
    destruct (String.eqb (toLowerCase dest) (toLowerCase recipient)) eqn:Hdest;
      cbn in H; [|discriminate].
    destruct (getProp proof "amount") as [claimed|] eqn:Hamt; cbn in H; [|discriminate].
    destruct (callToString claimed) as [text|] eqn:Htext; cbn in H; [|discriminate].
    destruct (String.eqb (pretty amount) text) eqn:Hsame; cbn in H; [|discriminate].
    apply String.eqb_eq in Hdest, Hsame. exists recipient, claimed. by subst.
Qed.

Lemma sdk_verified_transaction_witness :
  exists txHash tx b,
    getProp (JObj (Samples.decoded 7)) "txHash" = Ok txHash
    /\ getTransaction (Samples.chainWith Samples.strayTransaction) txHash = Ok (Some tx)
    /\ blockNumber tx = Some b /\ b <> 0
    /\ getTransactionReceipt (Samples.chainWith Samples.strayTransaction) txHash
       = Ok (Some {| receiptStatus := Some 1 |})
    /\ data tx <> CallMalformed SelTransfer
    /\ forall dest amount, data tx = CallTransfer dest amount ->
         exists recipient claimed,
           getProp (JObj (Samples.decoded 7)) "recipient" = Ok (JStr recipient)
           /\ toLowerCase dest = toLowerCase recipient
           /\ getProp (JObj (Samples.decoded 7)) "amount" = Ok claimed
           /\ callToString claimed = Ok (pretty amount).
Proof.
  apply (sdk_verified_transaction (Samples.chainWith Samples.strayTransaction)
           (JObj (Samples.decoded 7))).
  reflexivity.
Defined.

(** X5.  With no token address, or the zero address, the stand-alone
    verifier returns only [true], and only for a transaction that the
    provider knows, that is sent to the expected recipient (up to letter
    case) and that carries at least the expected amount converted with
    eighteen decimals. *)
Theorem standalone_native_payment_verified (E : Externals) (P : Provider) (txHash : jsval)
    (expectedRecipient expectedAmount : string) (tokenAddress : jsval) (b : bool) :
  Standalone.nativeBranch tokenAddress = true ->
  Standalone.verifyPaymentTransaction E P txHash expectedRecipient expectedAmount
    tokenAddress = Ok b ->
  exists tx target expectedWei,
    getTransaction P txHash = Ok (Some tx)
    /\ to tx = Some target
    /\ toLowerCase target = toLowerCase expectedRecipient
    /\ parseEther E (JStr expectedAmount) = Ok expectedWei
    /\ expectedWei <= value tx
    /\ b = true.
Proof.
  intros Hbranch. unfold Standalone.verifyPaymentTransaction. rewrite Hbranch.
  destruct (getTransaction P txHash) as [[tx|]|] eqn:Htx; cbn; [|discriminate..].
  destruct (to tx) as [target|] eqn:Hto; cbn; [|discriminate].
  destruct (String.eqb (toLowerCase target) (toLowerCase expectedRecipient)) eqn:Htarget;
    cbn; [|discriminate].
  destruct (parseEther E (JStr expectedAmount)) as [expectedWei|] eqn:Hwei;
    cbn; [|discriminate].
  destruct (value tx <? expectedWei) eqn:Hlt; [discriminate|].
  intros [= <-]. exists tx, target, expectedWei.
  apply String.eqb_eq in Htarget. split_and!; try done. lia.
Qed.

Lemma standalone_native_payment_verified_witness :
  exists tx target expectedWei,
    getTransaction (Samples.chainWith Samples.nativeTransfer) (JStr Samples.txHash)
    = Ok (Some tx)
    /\ to tx = Some target
    /\ toLowerCase target = toLowerCase Samples.merchant
    /\ parseEther Samples.E (JStr "0.001") = Ok expectedWei
    /\ expectedWei <= value tx
    /\ true = true.
Proof.
  apply (standalone_native_payment_verified Samples.E
           (Samples.chainWith Samples.nativeTransfer) (JStr Samples.txHash)
           Samples.merchant "0.001" JNull true).
  - reflexivity.
  - by vm_compute.
Defined.

(** X6.  The stand-alone verifier reads the recipient, the value and the
    call data of the transaction and nothing else: it reaches the same
    verdict on a transaction that is not yet in a block and without looking
    at any receipt. *)
Theorem standalone_ignores_confirmation (E : Externals) (P P' : Provider) (txHash : jsval)
    (expectedRecipient expectedAmount : string) (tokenAddress : jsval)
    (tx tx' : transaction) :
  getTransaction P txHash = Ok (Some tx) ->
  getTransaction P' txHash = Ok (Some tx') ->
  to tx = to tx' -> value tx = value tx' -> data tx = data tx' ->
  Standalone.verifyPaymentTransaction E P txHash expectedRecipient expectedAmount tokenAddress
  = Standalone.verifyPaymentTransaction E P' txHash expectedRecipient expectedAmount
      tokenAddress.
Proof.
  intros Htx Htx' Hto Hvalue Hdata. unfold Standalone.verifyPaymentTransaction.
  rewrite Htx, Htx'. cbn. by rewrite Hto, Hvalue, Hdata.
Qed.

Lemma standalone_ignores_confirmation_witness :
  Standalone.verifyPaymentTransaction Samples.E (Samples.chainWith Samples.nativeTransfer)
    (JStr Samples.txHash) Samples.merchant "0.001" JNull
  = Standalone.verifyPaymentTransaction Samples.E
      {| getTransaction := fun _ =>
           Ok (Some {| to := Some Samples.merchant; value := 1000000000000000;
                       data := CallOther; blockNumber := None |});
         getTransactionReceipt := fun _ => Throw "no receipt" |}
      (JStr Samples.txHash) Samples.merchant "0.001" JNull.
Proof.
  apply (standalone_ignores_confirmation Samples.E (Samples.chainWith Samples.nativeTransfer)
           _ (JStr Samples.txHash) Samples.merchant "0.001" JNull
           Samples.nativeTransfer
           {| to := Some Samples.merchant; value := 1000000000000000;
              data := CallOther; blockNumber := None |}); reflexivity.
Defined.

(** X7.  For a [transfer] call on the token contract the stand-alone
    verifier either returns [true] or throws "Invalid token transfer
    transaction": the inner [catch] replaces the messages "Transfer recipient
    mismatch" and "Transfer amount insufficient", and any error of the
    amount conversion, by that one message. *)
Theorem standalone_transfer_errors_masked (E : Externals) (P : Provider) (txHash : jsval)
    (expectedRecipient expectedAmount tokenAddress target dest : string) (amount : Z)
    (tx : transaction) :
  Standalone.nativeBranch (JStr tokenAddress) = false ->
  getTransaction P txHash = Ok (Some tx) ->
  to tx = Some target ->
  toLowerCase target = toLowerCase tokenAddress ->
  data tx = CallTransfer dest amount ->
  let verdict := Standalone.verifyPaymentTransaction E P txHash expectedRecipient
                   expectedAmount (JStr tokenAddress) in
  (verdict = Ok true
   /\ toLowerCase dest = toLowerCase expectedRecipient
   /\ exists expectedWei, parseUnits E (JStr expectedAmount) 6 = Ok expectedWei
        /\ expectedWei <= amount)
  \/ (verdict = Throw "Invalid token transfer transaction"
      /\ (toLowerCase dest <> toLowerCase expectedRecipient
          \/ (exists m, parseUnits E (JStr expectedAmount) 6 = Throw m)
          \/ exists expectedWei, parseUnits E (JStr expectedAmount) 6 = Ok expectedWei
               /\ amount < expectedWei)).
Proof.
  intros Hbranch Htx Hto Htarget Hdata verdict. subst verdict.
  unfold Standalone.verifyPaymentTransaction. rewrite Hbranch, Htx. cbn. rewrite Hto. cbn.
  apply String.eqb_eq in Htarget. rewrite Htarget. cbn. rewrite Hdata.
  destruct (String.eqb (toLowerCase dest) (toLowerCase expectedRecipient)) eqn:Hdest; cbn.
  - apply String.eqb_eq in Hdest.
    destruct (parseUnits E (JStr expectedAmount) 6) as [expectedWei|m] eqn:Hwei; cbn.
    + destruct (amount <? expectedWei) eqn:Hlt.
      * right. split; [done|]. right. right. exists expectedWei. split; [done|lia].
      * left. split_and!; [done|done|]. exists expectedWei. split; [done|lia].
    + right. split; [done|]. right. left. eauto.
  - apply String.eqb_neq in Hdest. right. split; [done|]. by left.
Qed.

Lemma standalone_transfer_errors_masked_witness :
  Standalone.verifyPaymentTransaction Samples.E
    (Samples.chainWith {| to := Some Samples.usdc; value := 0;
                          data := CallTransfer Samples.merchant 999;
                          blockNumber := Some 100 |})
    (JStr Samples.txHash) Samples.merchant "0.001" (JStr Samples.usdc)
  = Throw "Invalid token transfer transaction".
Proof.
  destruct (standalone_transfer_errors_masked Samples.E
              (Samples.chainWith {| to := Some Samples.usdc; value := 0;
                                    data := CallTransfer Samples.merchant 999;
                                    blockNumber := Some 100 |})
              (JStr Samples.txHash) Samples.merchant "0.001" Samples.usdc Samples.usdc
              Samples.merchant 999
              {| to := Some Samples.usdc; value := 0;
                 data := CallTransfer Samples.merchant 999; blockNumber := Some 100 |})
    as [(_ & _ & wei & Hwei & Hle)|[Hthrow _]].
  1-5: reflexivity.
  - vm_compute in Hwei. injection Hwei as <-. lia.
  - exact Hthrow.
Defined.

(** ** The stand-alone middleware *)

Lemma standalone_verifyProof_replies (E : Externals) (opts : Standalone.options)
    (P : Provider) (c : Standalone.challenge) (header : transport) (r : reply) :
  Standalone.verifyProof E opts P c header = Ok r ->
  (exists signer, r = CallNext [("paymentSigner", JStr signer)])
  \/ exists body, r = Respond 403 body.
Proof.
  unfold Standalone.verifyProof. intros H.
  destruct (Standalone.decodeProof header) as [proof|]; cbn in H; [|discriminate].
  destruct (getProp proof "txHash") as [txHash|]; cbn in H; [|discriminate].
  destruct (getProp proof "signature") as [signature|]; cbn in H; [|discriminate].
  destruct (getProp proof "recipient") as [recipient|]; cbn in H; [|discriminate].
  destruct (getProp proof "amount") as [amount|]; cbn in H; [|discriminate].
  destruct (_ || _); [injection H as <-; eauto|].
  destruct (Standalone.verifyProofSignature E proof) as [signer|]; cbn in H; [|discriminate].
  destruct (callToLowerCase recipient) as [received|]; cbn in H; [|discriminate].
  destruct (negb _); [injection H as <-; eauto|].
  destruct (floatLt E _ _); [injection H as <-; eauto|].
  destruct (if Standalone.verifyTransaction opts then _ else _); cbn in H; [|discriminate].
  injection H as <-. eauto.
Qed.

(** X8.  For a path with a configured challenge, the stand-alone middleware
    lets an exception escape exactly when the configured challenge string
    does not parse, and then on every request to the path, with or without
    a proof, because [parseChallenge] is called outside the [try].  When the
    challenge parses, the middleware always replies: with a 402 when the
    request carries no proof, and otherwise with [next()] or a 403, every
    error of the verification being turned into a 403. *)
Theorem standalone_middleware_replies (E : Externals) (opts : Standalone.options)
    (P : Provider) (req : request) (now : Z) (challengeString : string) :
  Standalone.challengeFor (Standalone.routes opts) (path req) = Some challengeString ->
  (forall m, Standalone.parseChallenge E challengeString now = Throw m ->
     Standalone.paymentMiddleware E opts P req now = Throw m)
  /\ (forall c, Standalone.parseChallenge E challengeString now = Ok c ->
      exists r, Standalone.paymentMiddleware E opts P req now = Ok r
        /\ match proofHeader req with
           | None => exists body, r = Respond 402 body
           | Some _ => (exists signer, r = CallNext [("paymentSigner", JStr signer)])
                       \/ exists body, r = Respond 403 body
           end).
Proof.
  intros Hroute. unfold Standalone.paymentMiddleware. rewrite Hroute. split.
  - intros m Hparse. by rewrite Hparse.
  - intros c Hparse. rewrite Hparse. cbn.
    destruct (proofHeader req) as [header|]; [|eauto].
    destruct (Standalone.verifyProof E opts P c header) as [r|m] eqn:Hverify.
    + exists r. split; [done|]. by eapply standalone_verifyProof_replies.
    + eexists. split; [done|]. right. eauto.
Qed.

Lemma standalone_middleware_replies_witness :
  Standalone.paymentMiddleware Samples.E
    (Samples.standaloneOptions "usdc:base_sepolia:not-an-address" false)
    (Samples.chainWith Samples.strayTransaction)
    {| path := "/premium-data"; proofHeader := None |} 0
  = Throw "invalid address".
Proof.
  destruct (standalone_middleware_replies Samples.E
              (Samples.standaloneOptions "usdc:base_sepolia:not-an-address" false)
              (Samples.chainWith Samples.strayTransaction)
              {| path := "/premium-data"; proofHeader := None |} 0
              "usdc:base_sepolia:not-an-address") as [Hthrow _].
  - reflexivity.
  - apply Hthrow. reflexivity.
Defined.

Lemma everyPart_literal (ps qs : list string) :
  Forall (fun part => startsWith ":" part = false) ps ->
  length ps = length qs ->
  Standalone.everyPart ps qs = true <-> ps = qs.
Proof.
  intros Hlit. revert qs. induction Hlit as [|part ps Hpart _ IH]; intros qs Hlen.
  - by destruct qs.
  - destruct qs as [|q qs]; [done|]. cbn. rewrite Hpart. cbn.
    rewrite andb_true_iff, String.eqb_eq, IH by (cbn in Hlen; lia).
    split; [by intros [-> ->]|by intros [= -> ->]].
Qed.

(** X9.  [matchRoute] compares a pattern and a path by their non-empty
    segments between slashes: a match needs as many segments in both, and a
    pattern none of whose segments starts with a colon matches exactly the
    paths that have the same segments, so empty segments (doubled or
    trailing slashes) are ignored. *)
Theorem matchRoute_segments (pattern p : string) :
  (Standalone.matchRoute pattern p = true ->
   length (Standalone.segments pattern) = length (Standalone.segments p))
  /\ (Forall (fun part => startsWith ":" part = false) (Standalone.segments pattern) ->
      (Standalone.matchRoute pattern p = true
       <-> Standalone.segments pattern = Standalone.segments p)).
Proof.
  unfold Standalone.matchRoute.
  destruct (length (Standalone.segments pattern) =? length (Standalone.segments p))%nat
    eqn:Hlen; cbn.
  - apply Nat.eqb_eq in Hlen. split; [done|]. intros Hlit. by apply everyPart_literal.
  - apply Nat.eqb_neq in Hlen. split; [done|]. intros _. split; [done|].
    intros Heq. by rewrite Heq in Hlen.
Qed.

Lemma matchRoute_segments_witness :
  Standalone.matchRoute "/api/data" "//api/data/" = true
  <-> Standalone.segments "/api/data" = Standalone.segments "//api/data/".
Proof.
  destruct (matchRoute_segments "/api/data" "//api/data/") as [_ Hlit].
  apply Hlit. vm_compute. repeat constructor.
Defined.

(** ** The verifier contract: nonces *)

(** X10.  [markProofUsed] succeeds exactly when [verifyPaymentProof] returns
    true on the same storage and block time and the signer's nonce can still
    be incremented; the storage it leaves differs from the old one only in
    the proof's hash, now marked used, and the signer's nonce, now one
    higher. *)
Theorem markProofUsed_iff_verified (C : PaymentVerifier.Crypto)
    (s s' : PaymentVerifier.storage) (now : Z) (a : PaymentVerifier.proofArgs) :
  PaymentVerifier.markProofUsed C s now a = Ok s'
  <-> exists signer,
        PaymentVerifier.verifyPaymentProof C s now a = Ok true
        /\ PaymentVerifier.recover C
             (PaymentVerifier.toEthSignedMessageHash C (PaymentVerifier.proofHashOf C a))
             (PaymentVerifier.signature a) = Ok signer
        /\ PaymentVerifier.getNonce s signer + 1 <= PaymentVerifier.maxUint256
        /\ s' = {| PaymentVerifier.usedProofs :=
                     <[PaymentVerifier.proofHashOf C a := true]>
                       (PaymentVerifier.usedProofs s);
                   PaymentVerifier.nonces :=
                     <[signer := PaymentVerifier.getNonce s signer + 1]>
                       (PaymentVerifier.nonces s) |}.
Proof.
  split.
  - intros Hmark.
    destruct (markProofUsed_inv _ _ _ _ _ Hmark) as (signer & Hrec & _ & _ & Hfit & ->).
    exists signer. split_and!; try done.
    unfold PaymentVerifier.markProofUsed in Hmark.
    destruct (PaymentVerifier.verifyPaymentProof C s now a) as [[]|]; cbn in Hmark;
      [done|discriminate..].
  - intros (signer & Hverify & Hrec & Hfit & ->).
    unfold PaymentVerifier.markProofUsed. rewrite Hverify. cbn. rewrite Hrec. cbn.
    unfold PaymentVerifier.checkedAdd.
    by replace (_ <=? _) with true by lia.
Qed.

(** A [markProofUsed] transaction never lowers a nonce. *)
Lemma transact_nonce_monotone (C : PaymentVerifier.Crypto) (s : PaymentVerifier.storage)
    (tx : Z * PaymentVerifier.proofArgs) (user : Z) :
  PaymentVerifier.getNonce s user <= PaymentVerifier.getNonce (PaymentVerifier.transact C s tx) user.
Proof.
  unfold PaymentVerifier.transact.
  destruct (PaymentVerifier.markProofUsed C s tx.1 tx.2) as [s'|] eqn:H; [|done].
  apply markProofUsed_inv in H as (payer & _ & _ & _ & _ & ->).
  unfold PaymentVerifier.getNonce at 2. cbn.
  destruct (decide (payer = user)) as [->|Hne].
  - rewrite lookup_insert_eq. cbn. lia.
  - rewrite lookup_insert_ne by done. done.
Qed.

Lemma transactAll_nonce_monotone (C : PaymentVerifier.Crypto)
    (txs : list (Z * PaymentVerifier.proofArgs)) (s : PaymentVerifier.storage) (user : Z) :
  PaymentVerifier.getNonce s user
  <= PaymentVerifier.getNonce (PaymentVerifier.transactAll C s txs) user.
Proof.
  revert s. induction txs as [|tx txs IH]; intros s; [done|]. cbn.
  etrans; [apply (transact_nonce_monotone C s tx)|apply IH].
Qed.

(** X11.  A nonce is spent by the first proof that uses it: once
    [markProofUsed] has succeeded for a proof, a later [markProofUsed] for
    any proof of the same signer that carries the same nonce reverts,
    whatever its other fields and whatever was marked in between. *)
Theorem nonce_spent_once (C : PaymentVerifier.Crypto) (s s' : PaymentVerifier.storage)
    (now later : Z) (a a' : PaymentVerifier.proofArgs)
    (between : list (Z * PaymentVerifier.proofArgs)) :
  PaymentVerifier.markProofUsed C s now a = Ok s' ->
  PaymentVerifier.recover C
    (PaymentVerifier.toEthSignedMessageHash C (PaymentVerifier.proofHashOf C a'))
    (PaymentVerifier.signature a')
  = PaymentVerifier.recover C
      (PaymentVerifier.toEthSignedMessageHash C (PaymentVerifier.proofHashOf C a))
      (PaymentVerifier.signature a) ->
  PaymentVerifier.nonce a' = PaymentVerifier.nonce a ->
  exists reason,
    PaymentVerifier.markProofUsed C (PaymentVerifier.transactAll C s' between) later a'
    = Throw reason.
Proof.
  intros Hmark Hsigner Hnonce.
  destruct (markProofUsed_inv _ _ _ _ _ Hmark) as (signer & Hrec & _ & Hcur & _ & ->).
  destruct (PaymentVerifier.markProofUsed C _ later a') as [s''|reason] eqn:Hagain; [|eauto].
  apply markProofUsed_inv in Hagain as (signer' & Hrec' & _ & Hcur' & _).
  assert (signer' = signer) as -> by congruence.
  pose proof (transactAll_nonce_monotone C between
                {| PaymentVerifier.usedProofs :=
                     <[PaymentVerifier.proofHashOf C a := true]>
                       (PaymentVerifier.usedProofs s);
                   PaymentVerifier.nonces :=
                     <[signer := PaymentVerifier.getNonce s signer + 1]>
                       (PaymentVerifier.nonces s) |} signer) as Hmono.
  unfold PaymentVerifier.getNonce at 1 in Hmono. cbn in Hmono.
  rewrite lookup_insert_eq in Hmono. cbn in Hmono. lia.
Qed.

Lemma nonce_spent_once_witness :
  exists reason,
    PaymentVerifier.markProofUsed Samples.onePayer
      (PaymentVerifier.transactAll Samples.onePayer
         (PaymentVerifier.transact Samples.onePayer Samples.freshStorage
            (1700000010, Samples.onChainProof))
         [(1700000015, Samples.nextProof)])
      1700000020 Samples.reusedNonceProof
    = Throw reason
    /\ reason = "Invalid nonce"
    /\ PaymentVerifier.isProofUsed
         (PaymentVerifier.transactAll Samples.onePayer
            (PaymentVerifier.transact Samples.onePayer Samples.freshStorage
               (1700000010, Samples.onChainProof))
            [(1700000015, Samples.nextProof)])
         (PaymentVerifier.proofHashOf Samples.onePayer Samples.reusedNonceProof) = false.
Proof.
  destruct (nonce_spent_once Samples.onePayer Samples.freshStorage
              (PaymentVerifier.transact Samples.onePayer Samples.freshStorage
                 (1700000010, Samples.onChainProof))
              1700000010 1700000020 Samples.onChainProof Samples.reusedNonceProof
              [(1700000015, Samples.nextProof)]) as [reason Hrevert].
  - by vm_compute.
  - reflexivity.
  - reflexivity.
  - exists reason. split; [exact Hrevert|]. split; [|by vm_compute].
    vm_compute in Hrevert. by injection Hrevert.
Defined.

(** ** The client's payment *)

Lemma executePayment_runs (E : Externals) (c : Client.PaymentChallenge)
    (tr : list Client.event) (r : result jsval) :
  Client.runs (Client.executePayment E c) tr r ->
  (tr = [] /\ exists m, r = Throw m)
  \/ exists a wei,
       Client.getTokenAddress E c = Ok (Some a) /\ Client.getAmountWei E c = Ok wei
       /\ ((exists m, tr = [Client.Rejected (Client.BalanceOf a) m] /\ r = Throw m)
           \/ exists balance rest,
                tr = Client.Resolved (Client.BalanceOf a) balance :: rest
                /\ ((balance < wei /\ rest = [] /\ r = Throw "Insufficient balance")
                    \/ (wei <= balance
                        /\ exists transfer after,
                             rest = transfer :: after
                             /\ Client.transferOf transfer = Some (a, Client.recipient c, wei)
                             /\ Forall (fun e => Client.isTransfer e = false
                                                 /\ Client.balanceSeen e = None) after
                             /\ Client.balanceSeen transfer = None))).
Proof.
  unfold Client.executePayment.
  destruct (Client.getTokenAddress E c) as [[a|]|m]; cbn.
  2,3: destruct (Client.getAmountWei E c); cbn; intros [-> ->]; left; eauto.
  destruct (Client.getAmountWei E c) as [wei|m]; cbn; [|intros [-> ->]; left; eauto].
  intros Hrun. right. exists a, wei. split_and!; [done|done|].
  destruct Hrun as [(balance & rest & -> & Hrun)|(m & -> & ->)]; [|left; eauto].
  right. exists balance, rest. split; [done|].
  destruct (balance <? wei) eqn:Hlt; cbn in Hrun.
  - destruct Hrun as [-> ->]. left. split_and!; [lia|done|done].
  - right. split; [lia|].
    destruct Hrun as [(hash & after & -> & Hrun)|(m & -> & ->)].
    + eexists _, after. split_and!; [done|done| |done].
      destruct Hrun as [([] & after' & -> & -> & _)|(m & -> & _)]; by repeat constructor.
    + eexists _, []. split_and!; [done|done|constructor|done].
Qed.

(** X12.  [executePayment] fails fast on an insufficient balance: in a run
    in which the balance query resolves to less than the amount due, no
    transfer is submitted and the function throws "Insufficient balance". *)
Theorem executePayment_insufficient_balance (E : Externals) (c : Client.PaymentChallenge)
    (tr : list Client.event) (r : result jsval) (wei balance : Z) :
  Client.runs (Client.executePayment E c) tr r ->
  Client.getAmountWei E c = Ok wei ->
  Exists (fun e => Client.balanceSeen e = Some balance) tr ->
  balance < wei ->
  Client.occurrences Client.isTransfer tr = 0%nat /\ r = Throw "Insufficient balance".
Proof.
  intros Hrun Hwei Hseen Hlow.
  destruct (executePayment_runs _ _ _ _ Hrun)
    as [[-> _]|(a & wei' & _ & Hwei' & [(m & -> & _)|(seen & rest & -> & Hcase)])].
  - by apply Exists_nil in Hseen.
  - apply Exists_cons in Hseen as [Hseen|Hseen]; [done|by apply Exists_nil in Hseen].
  - assert (wei' = wei) as -> by congruence.
    destruct Hcase as [(_ & -> & ->)|(Hok & transfer & after & -> & _ & Hafter & Hnone)];
      [done|].
    apply Exists_cons in Hseen as [[= ->]|Hseen]; [lia|].
    apply Exists_cons in Hseen as [Hseen|Hseen]; [congruence|].
    apply Exists_exists in Hseen as (e & He & Hseen).
    rewrite Forall_forall in Hafter. destruct (Hafter e He) as [_ Hno]. congruence.
Qed.

Lemma executePayment_insufficient_balance_witness :
  Client.occurrences Client.isTransfer
    [Client.Resolved (Client.BalanceOf Samples.usdc) 999] = 0%nat
  /\ Throw "Insufficient balance" = @Throw jsval "Insufficient balance".
Proof.
  apply (executePayment_insufficient_balance Samples.E Samples.challenge _ _ 1000 999).
  - unfold Client.executePayment.
    apply (runs_lift_bind _ _ (Some Samples.usdc)); [by vm_compute|].
    apply (runs_lift_bind _ _ 1000); [by vm_compute|].
    cbv beta iota. apply runs_await_bind. cbv beta.
    replace (999 <? 1000) with true by done. done.
  - by vm_compute.
  - by constructor.
  - lia.
Defined.

(** X13.  The only transfer [executePayment] ever submits is the one the
    challenge asks for: on the token contract the registry resolves, to the
    challenge's recipient, for the challenge's amount converted with six
    decimals. *)
Theorem executePayment_transfer_arguments (E : Externals) (c : Client.PaymentChallenge)
    (tr : list Client.event) (r : result jsval) (e : Client.event) :
  Client.runs (Client.executePayment E c) tr r ->
  e ∈ tr -> Client.isTransfer e = true ->
  exists a wei,
    Client.getTokenAddress E c = Ok (Some a)
    /\ Client.getAmountWei E c = Ok wei
    /\ Client.transferOf e = Some (a, Client.recipient c, wei).
Proof.
  intros Hrun He Htransfer.
  destruct (executePayment_runs _ _ _ _ Hrun)
    as [[-> _]|(a & wei & Ha & Hwei & [(m & -> & _)|(seen & rest & -> & Hcase)])].
  - by apply elem_of_nil in He.
  - apply elem_of_cons in He as [->|He]; [done|by apply elem_of_nil in He].
  - exists a, wei. split_and!; [done|done|].
    apply elem_of_cons in He as [->|He]; [done|].
    destruct Hcase as [(_ & -> & _)|(_ & transfer & after & -> & Hargs & Hafter & _)].
    + by apply elem_of_nil in He.
    + apply elem_of_cons in He as [->|He]; [done|].
      rewrite Forall_forall in Hafter. destruct (Hafter e He) as [Hno _]. congruence.
Qed.

Lemma executePayment_transfer_arguments_witness :
  exists a wei,
    Client.getTokenAddress Samples.E Samples.challenge = Ok (Some a)
    /\ Client.getAmountWei Samples.E Samples.challenge = Ok wei
    /\ Client.transferOf
         (Client.Resolved (Client.Transfer Samples.usdc (JStr Samples.merchant) 1000)
            (JStr Samples.txHash))
       = Some (a, Client.recipient Samples.challenge, wei).
Proof.
  apply (executePayment_transfer_arguments Samples.E Samples.challenge _ _ _
           executePayment_sample_run).
  - apply list_elem_of_further, list_elem_of_here.
  - reflexivity.
Defined.

(** X14.  [client.fetch] pays only on a 402 and only with [autoRetry] on:
    when the first response has another status, or [autoRetry] is off, the
    run consists of that one request and returns its response; when the
    first request is rejected, so is [fetch]. *)
Theorem fetch_without_payment (E : Externals) (opts : Client.ClientOptions) (url : string)
    (tr : list Client.event) (r : result Client.response) :
  Client.runs (Client.fetch E opts url) tr r ->
  (exists m, tr = [Client.Rejected (Client.HttpFetch url None) m] /\ r = Throw m)
  \/ exists resp rest,
       tr = Client.Resolved (Client.HttpFetch url None) resp :: rest
       /\ (Client.status resp <> 402 \/ Client.autoRetry opts = false ->
           rest = [] /\ r = Ok resp).
Proof.
  unfold Client.fetch. intros Hrun.
  destruct Hrun as [(resp & rest & -> & Hrun)|(m & -> & ->)]; [|left; eauto].
  right. exists resp, rest. split; [done|]. intros Hquiet. cbn in Hrun.
  assert (Hcond : (Client.status resp =? 402) && Client.autoRetry opts = false).
  { destruct Hquiet as [Hstatus| ->]; [|apply andb_false_r].
    replace (Client.status resp =? 402) with false by lia. done. }
  rewrite Hcond in Hrun. by destruct Hrun as [-> ->].
Qed.

Lemma fetch_without_payment_witness :
  (exists m, [Client.Resolved (Client.HttpFetch "/free" None)
                {| Client.status := 200; Client.body := Ok JNull |}]
             = [Client.Rejected (Client.HttpFetch "/free" None) m]
             /\ Ok {| Client.status := 200; Client.body := Ok JNull |} = Throw m)
  \/ exists resp rest,
       [Client.Resolved (Client.HttpFetch "/free" None)
          {| Client.status := 200; Client.body := Ok JNull |}]
       = Client.Resolved (Client.HttpFetch "/free" None) resp :: rest
       /\ (Client.status resp <> 402 \/ Client.autoRetry Samples.clientOptions = false ->
           rest = [] /\ Ok {| Client.status := 200; Client.body := Ok JNull |} = Ok resp).
Proof.
  apply (fetch_without_payment Samples.E Samples.clientOptions "/free").
  unfold Client.fetch. apply (runs_await_bind _ _ _ []). done.
Defined.

Lemma pay_rest_asks_no_nonce (E : Externals) (challenge : Client.PaymentChallenge)
    (nonce : jsval) :
  Client.atMost Client.isGetNonce 0
    (hash ← Client.executePayment E challenge;
     nowMs ← Client.await Client.DateNow;
     let proof := {| Client.txHash := hash; Client.challenge := challenge;
                     Client.proofNonce := nonce;
                     Client.timestamp := JNum (nowMs / 1000) |} in
     proofHash ← Client.lift (Client.getProofHash E proof);
     signature ← Client.await (Client.SignMessage proofHash);
     Client.lift (Client.encode E proof signature)).
Proof. bound. Qed.

(** X15.  [client.pay] asks the verifier contract for a nonce at most once,
    and not at all when no verifier address is configured or when the
    challenge carries a nonce of its own. *)
Theorem pay_nonce_source (E : Externals) (opts : Client.ClientOptions)
    (challengeString : jsval) (tr : list Client.event) (r : result transport) :
  Client.runs (Client.pay E opts challengeString) tr r ->
  (Client.occurrences Client.isGetNonce tr <= 1)%nat
  /\ (Client.verifierAddress opts = None
      \/ (exists s c, challengeString = JStr s /\ Client.parse E s = Ok c
                      /\ Client.nonce c <> JNull) ->
      Client.occurrences Client.isGetNonce tr = 0%nat).
Proof.
  intros Hrun. split.
  - revert tr r Hrun.
    change (Client.atMost Client.isGetNonce 1 (Client.pay E opts challengeString)).
    unfold Client.pay. apply atMost_bind_quiet; [bound|]. intros challenge.
    apply atMost_bind_once; [|intros nonce; apply pay_rest_asks_no_nonce].
    destruct (Client.nonce challenge), (Client.verifierAddress opts);
      try destruct (String.eqb _ _); first [apply atMost_return | apply atMost_await].
  - intros Hquiet.
    enough (Client.atMost Client.isGetNonce 0 (Client.pay E opts challengeString)) as Hzero
      by (specialize (Hzero _ _ Hrun); lia).
    unfold Client.pay. destruct Hquiet as [Hnone|(s & c & -> & Hparse & Hnonce)].
    + apply atMost_bind_quiet; [bound|]. intros challenge. rewrite Hnone.
      apply atMost_bind_quiet; [|intros nonce; apply pay_rest_asks_no_nonce].
      destruct (Client.nonce challenge); apply atMost_return.
    + rewrite Hparse.
      change (Client.lift (Ok c) ≫= ?k) with (k c). cbv beta.
      apply atMost_bind_quiet; [|intros nonce; apply pay_rest_asks_no_nonce].
      destruct (Client.nonce c); try done; apply atMost_return.
Qed.

Lemma pay_nonce_source_witness :
  (Client.occurrences Client.isGetNonce Samples.paymentRun <= 1)%nat
  /\ (Client.verifierAddress Samples.clientOptions = None
      \/ (exists s c, JStr Samples.challengeString = JStr s
                      /\ Client.parse Samples.E s = Ok c /\ Client.nonce c <> JNull) ->
      Client.occurrences Client.isGetNonce Samples.paymentRun = 0%nat).
Proof.
  apply (pay_nonce_source Samples.E Samples.clientOptions (JStr Samples.challengeString) _
           (Ok Samples.clientHeader)).
  apply pay_sample_run.
Defined.

(** ** Decoding, once more *)

(** X16.  [decodeProof] returns only JSON objects: a header that is not
    JSON, and one whose JSON is [null], a number, a string or a boolean, is
    rejected with an "Invalid proof format" error. *)
Theorem decodeProof_only_objects (header : transport) (proof : jsval) :
  Middleware.decodeProof header = Ok proof ->
  exists fs, header = Base64Json (JObj fs) /\ proof = JObj fs.
Proof.
  destruct header as [[| | | | | |fields|]|m]; try (by vm_compute).
  rewrite (decodeProof_object _ fields) by done. intros H. exists fields.
  destruct (Middleware.checkRequired (JObj fields) Middleware.required) as [[]|];
    [|discriminate].
  by injection H as <-.
Qed.

Lemma decodeProof_only_objects_witness :
  exists fs, Base64Json (JObj (Samples.decoded 7)) = Base64Json (JObj fs)
    /\ JObj (Samples.decoded 7) = JObj fs.
Proof.
  apply (decodeProof_only_objects (Base64Json (JObj (Samples.decoded 7)))
           (JObj (Samples.decoded 7))).
  reflexivity.
Defined.

(** ** Instances of the lemmas above *)

Lemma encode_decode_truthy_witness :
  exists header,
    Client.encode Samples.E (Samples.proofWithNonce 7) (JStr Samples.signature) = Ok header
    /\ Middleware.decodeProof header = Ok (JObj (Samples.decoded 7)).
Proof.
  apply (encode_decode_truthy Samples.E (Samples.proofWithNonce 7) (JStr Samples.signature)
           (Samples.decoded 7)).
  - by vm_compute.
  - repeat constructor.
Defined.

Lemma start_rejects_used_proof_witness :
  Middleware.start Samples.E Samples.config {[ Samples.proofHash := 1700000010050 ]}
    Samples.paidRequest 1700000020000
  = ({[ Samples.proofHash := 1700000010050 ]},
     Middleware.Finished
       (Middleware.errorWith 403 "Payment proof already used"
          "This payment proof has been used already. Please make a new payment.")).
Proof.
  apply (start_rejects_used_proof Samples.E Samples.config _ Samples.paidRequest
           Samples.challengeString (Base64Json (JObj (Samples.decoded 7)))
           (JObj (Samples.decoded 7)) Samples.proofHash 1700000010050).
  - reflexivity.
  - reflexivity.
  - reflexivity.
  - by vm_compute.
  - apply lookup_singleton_eq.
Defined.

Lemma accepted_again_after_sweep_witness :
  (Middleware.checkThenMark
     (Middleware.markProofInCache {[ Samples.proofHash := 1700000010050 ]} "0xabcd"
        1700000700000 1700000700000)
     Samples.proofHash 1700000700001 1700000700001).1 = true.
Proof.
  apply (accepted_again_after_sweep _ Samples.proofHash "0xabcd" 1700000010050).
  - apply lookup_singleton_eq.
  - discriminate.
  - lia.
Defined.

Lemma sdk_ignores_challenge_witness :
  Middleware.start Samples.E Samples.config ∅ Samples.paidRequest Samples.arrival
  = Middleware.start Samples.E
      {| Middleware.routes :=
           {[ "/premium-data"
              := "usdc:base_sepolia:0x000000000000000000000000000000000000dEaD?amount=5" ]};
         Middleware.provider := true;
         Middleware.verifierContract := false;
         Middleware.verifierSigner := false;
         Middleware.verifyOnChain := true;
         Middleware.verifyTransaction := true;
         Middleware.markUsed := true |}
      ∅ Samples.paidRequest Samples.arrival.
Proof.
  apply (sdk_ignores_challenge Samples.E Samples.config _ ∅ Samples.paidRequest
           (Base64Json (JObj (Samples.decoded 7))) Samples.challengeString
           "usdc:base_sepolia:0x000000000000000000000000000000000000dEaD?amount=5");
    reflexivity.
Defined.

Lemma sdk_accepts_any_other_call_witness :
  Middleware.verifyPaymentTransaction (Samples.chainWith Samples.strayTransaction)
    (JObj (Samples.decoded 7)) = true.
Proof.
  apply (sdk_accepts_any_other_call (Samples.chainWith Samples.strayTransaction)
           (JObj (Samples.decoded 7)) (JStr Samples.txHash) Samples.strayTransaction 100).
  - reflexivity.
  - reflexivity.
  - reflexivity.
  - discriminate.
  - reflexivity.
  - left. reflexivity.
Defined.

Lemma standalone_token_payment_verified_witness :
  exists tx target contract dest amount expectedWei,
    getTransaction
      (Samples.chainWith {| to := Some Samples.usdc; value := 0;
                            data := CallTransfer Samples.merchant 1000;
                            blockNumber := Some 100 |})
      (JStr Samples.txHash) = Ok (Some tx)
    /\ to tx = Some target
    /\ JStr Samples.usdc = JStr contract
    /\ toLowerCase target = toLowerCase contract
    /\ data tx = CallTransfer dest amount
    /\ toLowerCase dest = toLowerCase Samples.merchant
    /\ parseUnits Samples.E (JStr "0.001") 6 = Ok expectedWei
    /\ expectedWei <= amount
    /\ true = true.
Proof.
  apply (standalone_token_payment_verified Samples.E
           (Samples.chainWith {| to := Some Samples.usdc; value := 0;
                                 data := CallTransfer Samples.merchant 1000;
                                 blockNumber := Some 100 |})
           (JStr Samples.txHash) Samples.merchant "0.001" (JStr Samples.usdc) true).
  - reflexivity.
  - by vm_compute.
Defined.

Lemma standalone_not_a_transfer_witness :
  Standalone.verifyPaymentTransaction Samples.E
    (Samples.chainWith Samples.approveTransaction) (JStr Samples.txHash)
    Samples.merchant "0.001" (JStr Samples.usdc)
  = Throw "Transaction is not a valid transfer".
Proof.
  destruct (standalone_not_a_transfer Samples.E
              (Samples.chainWith Samples.approveTransaction) (JStr Samples.txHash)
              Samples.merchant "0.001" Samples.usdc Samples.usdc
              Samples.approveTransaction) as [_ Happrove].
  - reflexivity.
  - reflexivity.
  - reflexivity.
  - apply (Happrove eq_refl Samples.merchant 1000). reflexivity.
Defined.

(** ** The registry and the address library *)

Lemma registry_addresses (chain token a : string) (entries : gmap string string) :
  Client.tokens !! chain = Some entries -> entries !! token = Some a ->
  a ∈ ["0x036CbD53842c5426634e7929541eC2318f3dCF7e";
       "0x0000000000000000000000000000000000000000";
       "0x833589fCD6eDb6E08f4c7C32D4f71b54bdA02913";
       "0x5fd84259d66Cd46123540766Be93DFE6D43130D7"].
Proof.
  unfold Client.tokens. intros Hchain H.
  destruct (decide (chain = "base_sepolia")) as [->|Hc1].
  { rewrite lookup_insert_eq in Hchain. injection Hchain as <-.
    destruct (decide (token = "usdc")) as [->|Ht1].
    { rewrite lookup_insert_eq in H. injection H as <-. set_solver. }
    rewrite lookup_insert_ne in H by done.
    destruct (decide (token = "mock_usdc")) as [->|Ht2].
    { rewrite lookup_singleton_eq in H. injection H as <-. set_solver. }
    by rewrite lookup_singleton_ne in H. }
  rewrite lookup_insert_ne in Hchain by done.
  destruct (decide (chain = "base")) as [->|Hc2].
  { rewrite lookup_insert_eq in Hchain. injection Hchain as <-.
    destruct (decide (token = "usdc")) as [->|Ht1].
    { rewrite lookup_singleton_eq in H. injection H as <-. set_solver. }
    by rewrite lookup_singleton_ne in H. }
  rewrite lookup_insert_ne in Hchain by done.
  destruct (decide (chain = "optimism_sepolia")) as [->|Hc3].
  { rewrite lookup_singleton_eq in Hchain. injection Hchain as <-.
    destruct (decide (token = "usdc")) as [->|Ht1].
    { rewrite lookup_singleton_eq in H. injection H as <-. set_solver. }
    by rewrite lookup_singleton_ne in H. }
  by rewrite lookup_singleton_ne in Hchain.
Qed.

(** X24.  For a pair the registry holds, [getTokenAddress] returns the
    registry's own text, whatever the host's built-in objects are: own keys
    are found first, and with the address library as implemented in
    [Reference] (EIP-55 checksums over Keccak-256) every address of the
    registry is a correctly checksummed address, which [ethers.getAddress]
    neither rejects nor rewrites. *)
Theorem getTokenAddress_registered (E : Externals) (c : Client.PaymentChallenge)
    (entries : gmap string string) (a : string) :
  (forall v, getAddress E v = Reference.getAddress v) ->
  Client.tokens !! Client.chain c = Some entries ->
  entries !! Client.token c = Some a ->
  Client.getTokenAddress E c = Ok (Some a).
Proof.
  intros Hlibrary Hchain Htoken.
  unfold Client.getTokenAddress, Client.registryLookup, Client.registryEntry.
  rewrite Hchain, Htoken. cbn. rewrite !Hlibrary.
  pose proof (registry_addresses _ _ _ _ Hchain Htoken) as Hin.
  repeat (apply elem_of_cons in Hin as [->|Hin]; [by vm_compute|]).
  by apply elem_of_nil in Hin.
Qed.

Lemma getTokenAddress_registered_witness :
  Client.getTokenAddress Samples.E Samples.challenge = Ok (Some Samples.usdc).
Proof.
  apply (getTokenAddress_registered Samples.E Samples.challenge
           {[ "usdc" := "0x036CbD53842c5426634e7929541eC2318f3dCF7e";
              "mock_usdc" := "0x0000000000000000000000000000000000000000" ]}).
  - reflexivity.
  - reflexivity.
  - reflexivity.
Defined.

(** ** The verifier contract: what a call can do *)

(** X25.  [verifyPaymentProof] never returns false: it returns true or
    reverts, and it returns true exactly when the proof is neither expired
    nor dated too far ahead, its hash is not marked used, its signature
    recovers a signer and its nonce is that signer's current nonce. *)
Theorem verifyPaymentProof_true_or_revert (C : PaymentVerifier.Crypto)
    (s : PaymentVerifier.storage) (now : Z) (a : PaymentVerifier.proofArgs) (b : bool) :
  PaymentVerifier.verifyPaymentProof C s now a = Ok b
  <-> b = true
      /\ PaymentVerifier.timestamp a + 300 <= PaymentVerifier.maxUint256
      /\ now <= PaymentVerifier.timestamp a + 300
      /\ now + 60 <= PaymentVerifier.maxUint256
      /\ PaymentVerifier.timestamp a <= now + 60
      /\ PaymentVerifier.isProofUsed s (PaymentVerifier.proofHashOf C a) = false
      /\ exists signer,
           PaymentVerifier.recover C
             (PaymentVerifier.toEthSignedMessageHash C (PaymentVerifier.proofHashOf C a))
             (PaymentVerifier.signature a) = Ok signer
           /\ PaymentVerifier.getNonce s signer = PaymentVerifier.nonce a.
Proof.
  unfold PaymentVerifier.verifyPaymentProof, PaymentVerifier.checkedAdd,
    PaymentVerifier.require.
  split.
  - intros H.
    destruct (_ + 300 <=? _) eqn:H1; cbn in H; [|discriminate].
    destruct (now <=? _) eqn:H2; cbn in H; [|discriminate].
    destruct (now + 60 <=? _) eqn:H3; cbn in H; [|discriminate].
    destruct (_ <=? now + 60) eqn:H4; cbn in H; [|discriminate].
    destruct (PaymentVerifier.isProofUsed s _) eqn:Hused; cbn in H; [discriminate|].
    destruct (PaymentVerifier.recover C _ _) as [signer|] eqn:Hrec; cbn in H; [|discriminate].
    destruct (_ =? PaymentVerifier.nonce a) eqn:Hnonce; cbn in H; [|discriminate].
    injection H as <-. split_and!; try done; try lia. exists signer. split; [done|lia].
  - intros (-> & H1 & H2 & H3 & H4 & Hused & signer & Hrec & Hnonce).
    replace (_ + 300 <=? _) with true by lia. cbn.
    replace (now <=? _) with true by lia. cbn.
    replace (now + 60 <=? _) with true by lia. cbn.
    replace (_ <=? now + 60) with true by lia. cbn.
    rewrite Hused. cbn. rewrite Hrec. cbn.
    by replace (_ =? _) with true by lia.
Qed.

(** X26.  A successful [markProofUsed] touches nothing but its own proof and
    signer: the signer's nonce becomes the proof's nonce plus one, every
    other nonce and the used mark of every other hash stay as they were. *)
Theorem markProofUsed_frame (C : PaymentVerifier.Crypto) (s s' : PaymentVerifier.storage)
    (now : Z) (a : PaymentVerifier.proofArgs) :
  PaymentVerifier.markProofUsed C s now a = Ok s' ->
  exists signer,
    PaymentVerifier.recover C
      (PaymentVerifier.toEthSignedMessageHash C (PaymentVerifier.proofHashOf C a))
      (PaymentVerifier.signature a) = Ok signer
    /\ PaymentVerifier.getNonce s' signer = PaymentVerifier.nonce a + 1
    /\ (forall user, user <> signer ->
          PaymentVerifier.getNonce s' user = PaymentVerifier.getNonce s user)
    /\ (forall h, h <> PaymentVerifier.proofHashOf C a ->
          PaymentVerifier.isProofUsed s' h = PaymentVerifier.isProofUsed s h).
Proof.
  intros Hmark.
  destruct (markProofUsed_inv _ _ _ _ _ Hmark) as (signer & Hrec & _ & Hcur & _ & ->).
  exists signer. split_and!; [done| | |].
  - unfold PaymentVerifier.getNonce at 1. cbn. rewrite lookup_insert_eq. cbn. lia.
  - intros user Hne. unfold PaymentVerifier.getNonce at 1. cbn.
    by rewrite lookup_insert_ne.
  - intros h Hne. unfold PaymentVerifier.isProofUsed at 1. cbn.
    by rewrite lookup_insert_ne.
Qed.

Lemma markProofUsed_frame_witness :
  exists signer,
    PaymentVerifier.recover Reference.crypto
      (PaymentVerifier.toEthSignedMessageHash Reference.crypto
         (PaymentVerifier.proofHashOf Reference.crypto Samples.onChainProof))
      (PaymentVerifier.signature Samples.onChainProof) = Ok signer
    /\ PaymentVerifier.getNonce
         (PaymentVerifier.transact Reference.crypto Samples.freshStorage
            (1700000010, Samples.onChainProof)) signer
       = PaymentVerifier.nonce Samples.onChainProof + 1
    /\ (forall user, user <> signer ->
          PaymentVerifier.getNonce
            (PaymentVerifier.transact Reference.crypto Samples.freshStorage
               (1700000010, Samples.onChainProof)) user
          = PaymentVerifier.getNonce Samples.freshStorage user)
    /\ (forall h, h <> PaymentVerifier.proofHashOf Reference.crypto Samples.onChainProof ->
          PaymentVerifier.isProofUsed
            (PaymentVerifier.transact Reference.crypto Samples.freshStorage
               (1700000010, Samples.onChainProof)) h
          = PaymentVerifier.isProofUsed Samples.freshStorage h).
Proof.
  apply (markProofUsed_frame Reference.crypto Samples.freshStorage _ 1700000010
           Samples.onChainProof).
  unfold PaymentVerifier.transact.
  by destruct (PaymentVerifier.markProofUsed Reference.crypto Samples.freshStorage
                 (1700000010, Samples.onChainProof).1 (1700000010, Samples.onChainProof).2)
    eqn:H; [|vm_compute in H].
Defined.
